(** * python-prompt: the prompt-composition engine

    A shallow embedding of [async_prompt.py] (the socket server) and of
    [prompt.py] (the one-shot command), and the properties of the
    fragment/container model, the horizontal-rule compositor, the git
    classifier and the directory and last-command fragments.

    Python [str] values are modelled as [string]; a character is an
    [ascii], standing for a code point below 256.  Python [int] is [Z].
    The four glyphs of the source that lie outside this range stand in
    the prompt and in the right prompt only, as their UTF-8 bytes; no
    width is computed from them. *)

From Stdlib Require Import ZArith List String Ascii Bool Lia DecimalString Sorted.
Import ListNotations.
Local Open Scope string_scope.

(** ** Python string primitives *)

Module PyStr.

(** [len(s)] *)
Definition len (s : string) : Z := Z.of_nat (String.length s).

(** [s * n]: [n] copies of [s], the empty string when [n <= 0]. *)
Fixpoint repeat_nat (s : string) (n : nat) : string :=
  match n with
  | O => ""
  | S k => s ++ repeat_nat s k
  end.

Definition mul (s : string) (n : Z) : string := repeat_nat s (Z.to_nat n).

(** [sep.join(ls)] *)
Definition join (sep : string) (ls : list string) : string := String.concat sep ls.

(** [s[n:]] for [0 <= n]. *)
Fixpoint drop (n : nat) (s : string) : string :=
  match n, s with
  | O, _ => s
  | S k, String _ s' => drop k s'
  | S _, EmptyString => ""
  end.

(** [s[i:]] for any integer [i]: a negative [i] counts from the end and
    is clamped at the start of the string; note that [s[-0:]] is [s[0:]]. *)
Definition slice_from (i : Z) (s : string) : string :=
  let start := if (i <? 0)%Z then Z.max (len s + i) 0 else Z.min i (len s) in
  drop (Z.to_nat start) s.

(** [needle in hay] *)
Fixpoint contains (needle hay : string) : bool :=
  prefix needle hay ||
  match hay with
  | EmptyString => false
  | String _ hay' => contains needle hay'
  end.

(** [s.replace(old, new)] for a non-empty [old]: leftmost, non-overlapping
    occurrences.  [skip] counts the characters of a matched occurrence
    that are still to be passed over. *)
Fixpoint replace_from (old new : string) (skip : nat) (s : string) : string :=
  match s with
  | EmptyString => ""
  | String c s' =>
      match skip with
      | S k => replace_from old new k s'
      | O =>
          if prefix old s
          then new ++ replace_from old new (String.length old - 1) s'
          else String c (replace_from old new 0 s')
      end
  end.

(** [s.replace("", new)]: [new] before every character and at the end. *)
Fixpoint intersperse (new s : string) : string :=
  match s with
  | EmptyString => new
  | String c s' => new ++ String c (intersperse new s')
  end.

Definition replace (old new s : string) : string :=
  match old with
  | EmptyString => intersperse new s
  | String _ _ => replace_from old new 0 s
  end.

(** [s.split(sep)] for a one-character separator. *)
Fixpoint split (sep : ascii) (s : string) : list string :=
  match s with
  | EmptyString => [""]
  | String c s' =>
      if Ascii.eqb c sep then "" :: split sep s'
      else match split sep s' with
           | h :: t => String c h :: t
           | [] => [String c ""]
           end
  end.

(** [str(n)] for an integer. *)
Definition of_Z (n : Z) : string := NilZero.string_of_int (Z.to_int n).

(** [ch in s] for a character. *)
Fixpoint mem (ch : ascii) (s : string) : bool :=
  match s with
  | EmptyString => false
  | String c s' => Ascii.eqb c ch || mem ch s'
  end.

End PyStr.

(** ** Colors *)

Inductive Colors : Type :=
  | default | red | green | yellow | blue | purple | teal
  | special1 | special2 | special3 | special4 | gray.

Definition value (c : Colors) : Z :=
  match c with
  | default => 0 | red => 1 | green => 2 | yellow => 3 | blue => 4
  | purple => 5 | teal => 6
  | special1 => 16 | special2 => 17 | special3 => 18 | special4 => 19
  | gray => 21
  end%Z.

Definition NO_COLOR : bool := false.

Definition RULE_CHAR : string := "~".

(** [Colors.colorize]; the strings are raw in the source, so the
    backslash is a character of the result. *)
Definition colorize (self : Colors) (s : string) (zero_width : bool) : string :=
  if NO_COLOR then s
  else if zero_width
       then "%{\e[38;5;" ++ PyStr.of_Z (value self) ++ "m%}" ++ s ++ "%{\e[0;m%}"
       else "\e[38;5;" ++ PyStr.of_Z (value self) ++ "m" ++ s ++ "\e[0;m".

(** ** Fragments *)

(** A [PromptPart] object.  [last_cmd] is the extra attribute of the
    subclass [LastCommandFragment], whose [__len__] overrides the base
    one; it is [None] for every other class. *)
Record PromptPart : Type := mkPart {
  content : string;
  color : Colors;
  zero_width : bool;
  last_cmd : option string
}.

(** [PromptPart.__init__] *)
Definition PromptPart_init : PromptPart :=
  {| content := ""; color := default; zero_width := true; last_cmd := None |}.

Definition set_zero_width (b : bool) (p : PromptPart) : PromptPart :=
  {| content := content p; color := color p; zero_width := b;
     last_cmd := last_cmd p |}.

(** [PromptPart.__str__] *)
Definition part_str (p : PromptPart) : string :=
  if (value (color p) =? 0)%Z then content p
  else colorize (color p) (content p) (zero_width p).

(** [__len__]: [LastCommandFragment.__len__] where the object is one,
    [PromptPart.__len__] otherwise. *)
Definition part_len (p : PromptPart) : Z :=
  match last_cmd p with
  | Some cmd =>
      match cmd with
      | EmptyString => 0
      | String _ _ => PyStr.len cmd + 2
      end
  | None => PyStr.len (content p)
  end%Z.

(** Truth value of a string: non-empty. *)
Definition nonempty (s : string) : bool :=
  match s with EmptyString => false | String _ _ => true end.

(** ** The object store

    Fragments are mutable objects; containers hold references to them,
    and one fragment may sit in several containers. *)

Definition ref : Type := nat.
Definition store : Type := ref -> PromptPart.

Definition upd (st : store) (r : ref) (p : PromptPart) : store :=
  fun r' => if Nat.eqb r' r then p else st r'.

Record PromptPartContainer : Type := mkContainer {
  separator : string;
  parts : list ref
}.

(** [PromptPartContainer()] with no parts and the default separator. *)
Definition empty_container : PromptPartContainer :=
  {| separator := RULE_CHAR; parts := [] |}.

(** [PromptPartContainer.__len__] *)
Definition container_len (st : store) (c : PromptPartContainer) : Z :=
  fold_right Z.add 0%Z (map (fun r => part_len (st r)) (parts c)).

(** [PromptPartContainer.__str__] *)
Definition container_str (st : store) (c : PromptPartContainer) : string :=
  PyStr.join (separator c)
    (map (fun r => part_str (st r))
         (filter (fun r => nonempty (content (st r))) (parts c))).

(** [PromptPartContainer.uncolorized_str] *)
Definition uncolorized_str (st : store) (c : PromptPartContainer) : string :=
  PyStr.join (separator c)
    (map (fun r => content (st r))
         (filter (fun r => nonempty (content (st r))) (parts c))).

(** ** Exceptions and the state-and-error monad of the renderer *)

Inductive Exception : Type :=
  | CalledProcessError
  | TimeoutExpired
  | FileNotFoundError
  | ValueError.

Inductive Result (A : Type) : Type :=
  | Ok (a : A)
  | Raise (e : Exception).
Arguments Ok {A} a.
Arguments Raise {A} e.

Definition M (A : Type) : Type := store -> Result A * store.

Definition ret {A} (a : A) : M A := fun st => (Ok a, st).

Definition raise {A} (e : Exception) : M A := fun st => (Raise e, st).

Definition bind {A B} (m : M A) (k : A -> M B) : M B :=
  fun st =>
    match m st with
    | (Ok a, st') => k a st'
    | (Raise e, st') => (Raise e, st')
    end.

Notation "x <- m ;; k" := (bind m (fun x => k))
  (at level 61, m at next level, right associativity).
Notation "m ;;; k" := (bind m (fun _ => k))
  (at level 61, right associativity).

Definition get_store : M store := fun st => (Ok st, st).

Definition modify (r : ref) (f : PromptPart -> PromptPart) : M unit :=
  fun st => (Ok tt, upd st r (f (st r))).

Fixpoint for_each {A} (xs : list A) (body : A -> M unit) : M unit :=
  match xs with
  | [] => ret tt
  | x :: xs' => body x ;;; for_each xs' body
  end.

Definition lift {A} (r : Result A) : M A := fun st => (r, st).

(** The first loop of [embed_in_horizontal_rule]: every part of every
    container gets [zero_width = False]. *)
Definition disable_zero_width (containers : list PromptPartContainer) : M unit :=
  for_each containers
    (fun container =>
       for_each (parts container)
         (fun part => modify part (set_zero_width false))).

(** The store that this loop leaves, written out. *)
Definition mark (rs : list ref) (st : store) : store :=
  fold_left (fun s r => upd s r (set_zero_width false (s r))) rs st.

Definition top_line_store (st : store)
    (left_container center_container right_container : PromptPartContainer)
    : store :=
  mark (parts right_container)
    (mark (parts center_container) (mark (parts left_container) st)).

(** The store in which no fragment has a colour: what is rendered from
    it is the text that a terminal shows, the colour escapes taken out. *)
Definition set_color (c : Colors) (p : PromptPart) : PromptPart :=
  {| content := content p; color := c; zero_width := zero_width p;
     last_cmd := last_cmd p |}.

Definition uncolored (st : store) : store := fun r => set_color default (st r).

(** ** Errors without state: the outcomes of the git commands *)

Definition rbind {A B} (r : Result A) (k : A -> Result B) : Result B :=
  match r with
  | Ok a => k a
  | Raise e => Raise e
  end.

Notation "x <-r m ;; k" := (rbind m (fun x => k))
  (at level 61, m at next level, right associativity).

(** What [subprocess.run(..., check=True, timeout=GIT_CMD_TIMEOUT).stdout]
    gives for each of the three git commands: the text printed, or the
    exception raised ([CalledProcessError] on a non-zero exit status,
    [TimeoutExpired] after two seconds, [FileNotFoundError] when there is
    no git binary). *)
Record Git : Type := mkGit {
  git_status : Result string;   (* git status -s --porcelain=v1 *)
  git_branch : Result string;   (* git branch *)
  git_tag : Result string       (* git tag *)
}.

(** ** Regular expressions of the git classifier *)

Module Re.

Definition nl : ascii := ascii_of_nat 10.

(** [\s] of a [str] pattern, on code points below 256. *)
Definition is_space (c : ascii) : bool :=
  let n := nat_of_ascii c in
  (Nat.leb 9 n && Nat.leb n 13) || (Nat.leb 28 n && Nat.leb n 32)
  || Nat.eqb n 133 || Nat.eqb n 160.

(** The text matched by [.*] at the end of a pattern: up to the next
    newline. *)
Fixpoint line_rest (s : string) : string :=
  match s with
  | EmptyString => ""
  | String c s' => if Ascii.eqb c nl then "" else String c (line_rest s')
  end.

(** A pattern [^\s?LIT.*$] ([opt_space = true]) or [^LIT.*$]. *)
Record line_re : Type := mk_line_re { opt_space : bool; lit : string }.

(** One attempt at a position where [^] holds.  After [LIT] the rest,
    [.*$], always matches: [.*] runs to the end of the line, where [$]
    holds under [MULTILINE]. *)
Definition match_here (re : line_re) (s : string) : bool :=
  prefix (lit re) s ||
  (opt_space re &&
   match s with
   | EmptyString => false
   | String c s' => is_space c && prefix (lit re) s'
   end).

(** [search(re, s, MULTILINE)] as a truth value; [bol] says whether [^]
    holds at the head of [s]. *)
Fixpoint search_from (re : line_re) (bol : bool) (s : string) : bool :=
  (bol && match_here re s) ||
  match s with
  | EmptyString => false
  | String c s' => search_from re (Ascii.eqb c nl) s'
  end.

Definition search_multiline (re : line_re) (s : string) : bool :=
  search_from re true s.

(** The longest [x] with [s = x ++ String c rest]: a greedy group of
    any characters followed by the character [c], after backtracking. *)
Fixpoint upto_last (c : ascii) (s : string) : option string :=
  match s with
  | EmptyString => None
  | String a s' =>
      match upto_last c s' with
      | Some x => Some (String a x)
      | None => if Ascii.eqb a c then Some "" else None
      end
  end.

(** [search] for a literal, a greedy named group of any characters and a
    closing parenthesis: the group of the leftmost match. *)
Fixpoint search_group_paren (literal s : string) : option string :=
  match
    (if prefix literal s
     then upto_last ")" (line_rest (PyStr.drop (String.length literal) s))
     else None)
  with
  | Some g => Some g
  | None =>
      match s with
      | EmptyString => None
      | String _ s' => search_group_paren literal s'
      end
  end.

(** [search] for a literal and a greedy named group of any characters:
    the group of the leftmost match. *)
Fixpoint search_group (literal s : string) : option string :=
  if prefix literal s
  then Some (line_rest (PyStr.drop (String.length literal) s))
  else match s with
       | EmptyString => None
       | String _ s' => search_group literal s'
       end.

End Re.

(** [GIT_REGULAR_BRANCH_REGEX]: a star, a space, and the group
    [branch] running to the end of the line. *)
Definition search_regular_branch (s : string) : option string :=
  Re.search_group "* " s.

(** [GIT_COMMIT_OR_TAG_REGEX]: a star, a space, the words in
    parentheses, with the group [name] running to the last closing
    parenthesis of the line. *)
Definition search_commit_or_tag (s : string) : option string :=
  Re.search_group_paren "* (HEAD detached at " s.

(** ** The git fragment *)

Inductive Mod : Type := added | modified | deleted | unknown.

(** [GitInfoFragment.mod_indicator_re], in the order of the dict. *)
Definition mod_indicator_re (m : Mod) : Re.line_re :=
  match m with
  | added => Re.mk_line_re true "A  "
  | modified => Re.mk_line_re true "M "
  | deleted => Re.mk_line_re true "D "
  | unknown => Re.mk_line_re false "?? "
  end.

Definition mods : list Mod := [added; modified; deleted; unknown].

(** The default [indicators] of [GitInfoFragment.__init__]. *)
Definition indicators (m : Mod) : string :=
  match m with
  | added => "+"
  | modified => "!"
  | deleted => "-"
  | unknown => "?"
  end.

(** [sorted] on a list of strings. *)
Fixpoint insert_sorted (x : string) (l : list string) : list string :=
  match l with
  | [] => [x]
  | y :: l' => if String.leb x y then x :: l else y :: insert_sorted x l'
  end.

Definition sorted (l : list string) : list string :=
  fold_right insert_sorted [] l.

(** The tuple built by [_git_mod_info] from the text of the status
    command. *)
Definition mod_info_of (status_str : string) : list Mod :=
  filter (fun m => Re.search_multiline (mod_indicator_re m) status_str) mods.

Definition _git_mod_info (git : Git) : Result (list Mod) :=
  status_str <-r git_status git ;;
  Ok (mod_info_of status_str).

(** [mod_str] of [GitInfoFragment.__init__]. *)
Definition mod_str_of (ms : list Mod) : string :=
  let mod_symbols := PyStr.join "" (sorted (map indicators ms)) in
  if nonempty mod_symbols then "|" ++ mod_symbols ++ "|" else "".

Definition modifier_string (status_str : string) : string :=
  mod_str_of (mod_info_of status_str).

(** [tag_str in stdout] of [is_tag]. *)
Definition is_tag_of (tag_str tags : string) : bool :=
  PyStr.contains tag_str tags.

Definition is_tag (git : Git) (tag_str : string) : Result bool :=
  tags <-r git_tag git ;;
  Ok (is_tag_of tag_str tags).

(** [_head_info] once the branch listing is read; [tag_check] is the
    call of [is_tag]. *)
Definition head_info_of (git_info_str : string)
    (tag_check : string -> Result bool) : Result string :=
  match search_commit_or_tag git_info_str with
  | Some head_name =>
      t <-r tag_check head_name ;;
      Ok ((if t then "(T)" else "(D)") ++ " " ++ head_name)
  | None =>
      match search_regular_branch git_info_str with
      | Some branch => Ok ("(B) " ++ branch)
      | None => Ok "(B) master"
      end
  end.

Definition _head_info (git : Git) : Result string :=
  git_info_str <-r git_branch git ;;
  head_info_of git_info_str (is_tag git).

Definition branch_info (git : Git) : Result string := _head_info git.

(** [_head_info] on a branch listing and a tag listing that were both
    read without an exception. *)
Definition head_descriptor (branches tags : string) : Result string :=
  _head_info {| git_status := Ok ""; git_branch := Ok branches;
                git_tag := Ok tags |}.

(** [GitInfoFragment.__init__] with the default [format_str],
    [color] and [indicators]: first the body of the [try] block, which
    ends with the pair of [head] and [modifier], then the [except] and
    [else] clauses.  [CalledProcessError] and [TimeoutExpired] are the
    only exceptions caught. *)
Definition format_dict (git : Git) : Result (string * string) :=
  ms <-r _git_mod_info git ;;
  let mod_str := mod_str_of ms in
  head <-r branch_info git ;;
  Ok (head, mod_str).

Definition GitInfoFragment (git : Git) : Result PromptPart :=
  match format_dict git with
  | Raise CalledProcessError => Ok PromptPart_init
  | Raise TimeoutExpired => Ok PromptPart_init
  | Raise e => Raise e
  | Ok (head, modifier) =>
      Ok {| content := "[" ++ head ++ modifier ++ "]"; color := blue;
            zero_width := true; last_cmd := None |}
  end.

(** ** The other fragments *)

(** A double quote and a backslash, as one-character strings. *)
Definition dquote : string := String (ascii_of_nat 34) "".
Definition backslash : string := String (ascii_of_nat 92) "".
Definition newline : string := String Re.nl "".

Module Shlex.

(** The characters that [quote] leaves alone: word characters of the
    ASCII range and [@%+=:,./-]. *)
Definition safe (c : ascii) : bool :=
  let n := nat_of_ascii c in
  (Nat.leb 48 n && Nat.leb n 57) || (Nat.leb 65 n && Nat.leb n 90)
  || (Nat.leb 97 n && Nat.leb n 122) || Nat.eqb n 95
  || PyStr.mem c "@%+=:,./-".

Fixpoint all_safe (s : string) : bool :=
  match s with
  | EmptyString => true
  | String c s' => safe c && all_safe s'
  end.

(** [shlex.quote] *)
Definition quote (s : string) : string :=
  if negb (nonempty s) then "''"
  else if all_safe s then s
  else "'" ++ PyStr.replace "'" ("'" ++ dquote ++ "'" ++ dquote ++ "'") s ++ "'".

End Shlex.

(** [format_str.format(arg)] for a template with a single unnamed pair
    of curly braces, as the constructors require. *)
Fixpoint format1 (format_str arg : string) : string :=
  match format_str with
  | EmptyString => ""
  | String c rest =>
      if prefix "{}" format_str then arg ++ PyStr.drop 1 rest
      else String c (format1 rest arg)
  end.

(** [LastCommandFragment.__init__]; [escaped_backslash] is what a
    backslash of the quoted command is replaced with: two backslashes in
    [async_prompt.py], four in [prompt.py]. *)
Definition LastCommandFragment_with (escaped_backslash : string)
    (cmd : string) (color : Colors) (format_str : string) : PromptPart :=
  {| content :=
       if nonempty cmd
       then format1 format_str
              (PyStr.replace backslash escaped_backslash (Shlex.quote cmd))
       else "";
     color := color;
     zero_width := true;
     last_cmd := Some cmd |}.

(** [PWDFragment._get_shortened_pwd] *)
Definition _get_shortened_pwd (HOME pwd : string) (max_len : Z) : string :=
  let _pwd := PyStr.replace HOME "~" pwd in
  if (max_len <? PyStr.len _pwd)%Z
  then "..." ++ PyStr.slice_from (- (max_len - 3)) _pwd
  else _pwd.

(** [PWDFragment.__init__] *)
Definition PWDFragment (HOME pwd : string) (color : Colors) (max_len : Z)
    (format_str : string) : PromptPart :=
  let path := _get_shortened_pwd HOME pwd max_len in
  {| content := format1 format_str path; color := color;
     zero_width := true; last_cmd := None |}.

(** Two decimal digits, as [%H], [%M] and [%S] print them. *)
Definition two_digits (n : Z) : string :=
  if (n <? 10)%Z then "0" ++ PyStr.of_Z n else PyStr.of_Z n.

Record Clock : Type := mkClock { hour : Z; minute : Z; second : Z }.

(** [TimeFragment.__init__] with the default [format_str]; [now] is
    the reading of [datetime.now()]. *)
Definition TimeFragment (now : Clock) (color : Colors) : PromptPart :=
  {| content := "[" ++ two_digits (hour now) ++ ":" ++ two_digits (minute now)
                    ++ ":" ++ two_digits (second now) ++ "]";
     color := color; zero_width := true; last_cmd := None |}.

(** [ColoredTextFragment.__init__] *)
Definition ColoredTextFragment (_str : string) (color : Colors) : PromptPart :=
  {| content := _str; color := color; zero_width := true; last_cmd := None |}.

(** [ReturnStatusFragment.__init__] *)
Definition ReturnStatusFragment (return_status : Z) (color : Colors)
    (format_str : string) : PromptPart :=
  {| content := if (return_status =? 0)%Z then ""
                else format1 format_str (PyStr.of_Z return_status);
     color := color; zero_width := true; last_cmd := None |}.

(** [path.split("/")[-1]] *)
Definition last_segment (path : string) : string :=
  last (PyStr.split "/" path) "".

(** The truth value of a fragment is that of its [__len__]. *)
Definition truthy (p : PromptPart) : bool := negb (part_len p =? 0)%Z.

(** ** The render context

    What one render reads from outside: the home directory of the
    process, the variables of the shell that asks for a prompt ([COLS] is
    the reading of [tput cols] for the one-shot command), the outcomes
    of the git commands, and the clock.  [PWD], [LAST_CMD],
    [LAST_EXIT_CODE] and [COLS] are set, and the two numbers are
    well-formed integers. *)

Record Context : Type := mkContext {
  HOME : string;
  PWD : string;
  LAST_CMD : string;
  LAST_EXIT_CODE : Z;
  VIRTUAL_ENV : option string;
  CONDA_DEFAULT_ENV : option string;
  NODE_VIRTUAL_ENV : option string;
  COLS : Z;
  git : Git;
  now : Clock
}.

(** The store with the objects [objs] at the references [0], [1], ... *)
Definition store_of (objs : list PromptPart) : store :=
  fun r => nth r objs PromptPart_init.

(** The three containers of the top line, over the references of the
    four fragments: git, last command, directory and time. *)
Definition left_container : PromptPartContainer :=
  {| separator := ""; parts := [0; 1]%nat |}.
Definition center_container : PromptPartContainer :=
  {| separator := RULE_CHAR; parts := [2]%nat |}.
Definition right_container : PromptPartContainer :=
  {| separator := RULE_CHAR; parts := [3]%nat |}.

(** ** The server ([async_prompt.py]) *)

Module Server.

(** [LastCommandFragment.__init__]: a backslash of the quoted command
    becomes two. *)
Definition LastCommandFragment (cmd : string) (color : Colors)
    (format_str : string) : PromptPart :=
  LastCommandFragment_with (backslash ++ backslash) cmd color format_str.

(** [VirtualEnvFragment.__init__] *)
Definition VirtualEnvFragment (virtual_env_path : string) (color : Colors)
    (format_str : string) : PromptPart :=
  {| content := if nonempty virtual_env_path
                then format1 format_str (last_segment virtual_env_path)
                else "";
     color := color; zero_width := true; last_cmd := None |}.

(** [embed_in_horizontal_rule]; [terminal_width] is the integer that
    [int(terminal_width_str)] gives. *)
Definition embed_in_horizontal_rule (terminal_width : Z)
    (left_container center_container right_container : PromptPartContainer)
    (rule_char : string) : M string :=
  disable_zero_width [left_container; center_container; right_container] ;;;
  st <- get_store ;;
  let center_str := container_str st center_container in
  let length_of_middle_container :=
    (terminal_width - container_len st left_container
                    - container_len st right_container)%Z in
  let needed_rule_chars :=
    (length_of_middle_container - container_len st center_container)%Z in
  let center_str :=
    if (0 <? needed_rule_chars)%Z then
      let left_right_fill_length :=
        ((length_of_middle_container - container_len st center_container) / 2)%Z in
      PyStr.mul rule_char (left_right_fill_length + needed_rule_chars mod 2)
        ++ center_str
        ++ PyStr.mul rule_char left_right_fill_length
    else center_str in
  ret (container_str st left_container ++ center_str
         ++ container_str st right_container).

(** [OUTPUT.format] on the fields of [prompt_dir] *)
Definition OUTPUT (topline prompt rprompt : string) : string :=
  "function topline(){" ++ newline ++
  "    echo '" ++ topline ++ "'" ++ newline ++
  "};" ++ newline ++
  "topline;" ++ newline ++
  "export PROMPT=" ++ dquote ++ "$(echo " ++ dquote ++ prompt ++ dquote
    ++ ")" ++ dquote ++ ";" ++ newline ++
  "export RPROMPT=" ++ dquote ++ "$(echo " ++ dquote ++ rprompt ++ dquote
    ++ ")" ++ dquote ++ ";" ++ newline ++
  "export LAST_CMD=" ++ dquote ++ dquote ++ newline.

Definition env_get (v : option string) : string :=
  match v with Some x => x | None => "" end.

(** The four fragments of the top line of [handle_client], the git
    fragment once it is built. *)
Definition top_store (ctx : Context) (git_fragment : PromptPart) : store :=
  store_of [git_fragment;
            LastCommandFragment (LAST_CMD ctx) green "['{}']";
            PWDFragment (HOME ctx) (PWD ctx) teal 60 "({})";
            TimeFragment (now ctx) gray].

(** The top line of [handle_client]. *)
Definition topline (ctx : Context) : Result string :=
  git_fragment <-r GitInfoFragment (git ctx) ;;
  fst (embed_in_horizontal_rule (COLS ctx) left_container center_container
         right_container RULE_CHAR (top_store ctx git_fragment)).

(** [prompt_str] of [handle_client] *)
Definition prompt_str (ctx : Context) : string :=
  PyStr.join ""
    (map part_str
       (filter truthy
          [VirtualEnvFragment (env_get (VIRTUAL_ENV ctx)) teal "[🐍{}]";
           VirtualEnvFragment (env_get (NODE_VIRTUAL_ENV ctx)) green "[⬡ {}]";
           ColoredTextFragment "➤ " red])).

Definition rprompt (ctx : Context) : string :=
  part_str (ReturnStatusFragment (LAST_EXIT_CODE ctx) red "{} ⏎").

(** What [handle_client] writes to the client whose environment is
    [ctx].  A context holds [COLS] and [LAST_EXIT_CODE] as the integers
    that [int] has read and [PWD] as a string: the [ValueError] of
    [int] on another text and the failure on a client without [PWD] are
    outside this function. *)
Definition handle_client (ctx : Context) : Result string :=
  top <-r topline ctx ;;
  Ok (OUTPUT top (prompt_str ctx) (rprompt ctx)).

End Server.

(** ** The one-shot command ([prompt.py]) *)

Module OneShot.

(** [LastCommandFragment.__init__]: a backslash of the quoted command
    becomes four. *)
Definition LastCommandFragment (cmd : string) (color : Colors)
    (format_str : string) : PromptPart :=
  LastCommandFragment_with (backslash ++ backslash ++ backslash ++ backslash)
    cmd color format_str.

(** [VirtualEnvFragment.__init__] and [CondaEnvFragment.__init__], on the
    value of their environment variable; a [KeyError] leaves the
    fragment as [PromptPart.__init__] made it. *)
Definition EnvFragment (variable : option string) (color : Colors)
    (format_str : string) : PromptPart :=
  match variable with
  | None => PromptPart_init
  | Some path =>
      {| content := format1 format_str (last_segment path);
         color := color; zero_width := true; last_cmd := None |}
  end.

(** ["{0:{fill}^{cols}}".format(s, fill=fill, cols=cols)]: the format
    specification is [fill], the character [^] and the decimal digits of
    [cols].  A minus sign in front of the width is a sign option, which
    a string does not accept; a [fill] of two characters or more leaves
    an unreadable specification; an absent [fill] pads with spaces.  The
    padding of a centred string puts [pad // 2] characters in front and
    the rest behind. *)
Definition format_center (s fill : string) (cols : Z) : Result string :=
  match fill with
  | String _ (String _ _) => Raise ValueError
  | _ =>
      if (cols <? 0)%Z then Raise ValueError
      else
        let fill_char := match fill with EmptyString => " " | _ => fill end in
        let pad := (cols - PyStr.len s)%Z in
        if (0 <? pad)%Z
        then Ok (PyStr.mul fill_char (pad / 2) ++ s
                   ++ PyStr.mul fill_char (pad - pad / 2))
        else Ok s
  end.

(** [embed_in_horizontal_rule]; [terminal_width] is the integer read
    from [tput cols]. *)
Definition embed_in_horizontal_rule (terminal_width : Z)
    (left_container center_container right_container : PromptPartContainer)
    (rule_char : string) : M string :=
  disable_zero_width [left_container; center_container; right_container] ;;;
  st <- get_store ;;
  center_str <- lift (format_center (uncolorized_str st center_container)
                        rule_char
                        (terminal_width - container_len st left_container
                                        - container_len st right_container)) ;;
  let center_str :=
    PyStr.replace (uncolorized_str st center_container)
      (container_str st center_container) center_str in
  ret (container_str st left_container ++ center_str
         ++ container_str st right_container).

(** [OUTPUT.format] on the fields of [prompt_dir] *)
Definition OUTPUT (topline prompt rprompt : string) : string :=
  "function topline(){" ++ newline ++
  "    echo '" ++ topline ++ "'" ++ newline ++
  "};" ++ newline ++
  "topline;" ++ newline ++
  "export PROMPT='" ++ prompt ++ "';" ++ newline ++
  "export RPROMPT='" ++ rprompt ++ "'" ++ newline ++
  "export LAST_CMD=" ++ dquote ++ dquote ++ newline.

(** The four fragments of the top line of [main], the git
    fragment once it is built. *)
Definition top_store (ctx : Context) (git_fragment : PromptPart) : store :=
  store_of [git_fragment;
            LastCommandFragment (LAST_CMD ctx) green "['{}']";
            PWDFragment (HOME ctx) (PWD ctx) teal 60 "({})";
            TimeFragment (now ctx) gray].

(** The top line of [main]. *)
Definition topline (ctx : Context) : Result string :=
  git_fragment <-r GitInfoFragment (git ctx) ;;
  fst (embed_in_horizontal_rule (COLS ctx) left_container center_container
         right_container RULE_CHAR (top_store ctx git_fragment)).

(** [prompt_str] of [main] *)
Definition prompt_str (ctx : Context) : string :=
  PyStr.join " "
    (map part_str
       (filter truthy
          [EnvFragment (VIRTUAL_ENV ctx) teal "({})";
           EnvFragment (CONDA_DEFAULT_ENV ctx) green "({})";
           ColoredTextFragment "➤ " red])).

Definition rprompt (ctx : Context) : string :=
  part_str (ReturnStatusFragment (LAST_EXIT_CODE ctx) red "{} ⏎").

(** What [main] prints; [print] ends the text with a newline. *)
Definition main (ctx : Context) : Result string :=
  top <-r topline ctx ;;
  Ok (OUTPUT top (prompt_str ctx) (rprompt ctx) ++ newline).

End OneShot.

(** ** Visible width and renderer operations *)

(** The number of visible characters of the line that [m] renders: the
    length of the line that the same computation gives when no fragment
    is coloured. *)
Definition visible_width (m : M string) (st : store) : Z :=
  match fst (m (uncolored st)) with
  | Ok line => PyStr.len line
  | Raise _ => 0
  end.

(** The fill of the horizontal rule: the terminal width minus the three
    display widths. *)
Definition fill_of (w : Z) (l c r : PromptPartContainer) (st : store) : Z :=
  (w - container_len st l - container_len st r - container_len st c)%Z.

(** The middle budget: what the left and the right container leave of
    the terminal width. *)
Definition middle_budget (w : Z) (l r : PromptPartContainer) (st : store) : Z :=
  (w - container_len st l - container_len st r)%Z.

(** Two stores whose fragments carry the same text. *)
Definition same_text (st1 st2 : store) : Prop :=
  forall x, content (st1 x) = content (st2 x)
            /\ last_cmd (st1 x) = last_cmd (st2 x).

(** The operations of the renderer on fragments that exist already. *)
Inductive RendererOp : Type :=
  | OpStr (c : PromptPartContainer)
  | OpUncolorized (c : PromptPartContainer)
  | OpLen (c : PromptPartContainer)
  | OpEmbedServer (w : Z) (l c r : PromptPartContainer) (rule_char : string)
  | OpEmbedOneShot (w : Z) (l c r : PromptPartContainer) (rule_char : string).

(** The store that an operation leaves. *)
Definition store_after (op : RendererOp) (st : store) : store :=
  match op with
  | OpStr c => snd ((s <- get_store ;; ret (container_str s c)) st)
  | OpUncolorized c => snd ((s <- get_store ;; ret (uncolorized_str s c)) st)
  | OpLen c => snd ((s <- get_store ;; ret (container_len s c)) st)
  | OpEmbedServer w l c r rc =>
      snd (Server.embed_in_horizontal_rule w l c r rc st)
  | OpEmbedOneShot w l c r rc =>
      snd (OneShot.embed_in_horizontal_rule w l c r rc st)
  end.

(** The references that an [embed_in_horizontal_rule] goes through. *)
Definition embedded_parts (op : RendererOp) : list ref :=
  match op with
  | OpEmbedServer _ l c r _ | OpEmbedOneShot _ l c r _ =>
      parts l ++ parts c ++ parts r
  | _ => []
  end.

(** ** The lines of the status text *)

Definition status_lines (status_str : string) : list string :=
  PyStr.split Re.nl status_str.

(** A status line falls in the bucket [m]. *)
Definition in_bucket (m : Mod) (line : string) : bool :=
  Re.match_here (mod_indicator_re m) line.

(** The status text of the specification's example. *)
Definition sample_status : string :=
  "A  new.txt" ++ newline ++ " M changed.txt" ++ newline
  ++ "?? untracked.txt" ++ newline.

(** The same with a second added file. *)
Definition sample_status_two_added : string :=
  "A  new.txt" ++ newline ++ "A  other.txt" ++ newline
  ++ " M changed.txt" ++ newline ++ "?? untracked.txt" ++ newline.

(** ** The directory fragment as the specification words it

    The home directory is replaced where it is the prefix of the path,
    and nowhere else. *)
Definition replace_home_prefix (HOME pwd : string) : string :=
  if prefix HOME pwd then "~" ++ PyStr.drop (String.length HOME) pwd else pwd.

(** A path below the home directory that is 70 characters long once the
    home directory is abbreviated. *)
Definition long_pwd : string :=
  "/home/u/projects/python/prompt/src/deeply/nested/directory/structure/layouts".

(** ** The environment sent by a client ([handle_client])

    The text read from the socket, once decoded, is cut at every NUL;
    an empty piece is passed over, a piece with an equals sign is cut at
    the first one and stored, and a piece without one raises
    [ValueError] at the unpacking, which the [except] clause logs and
    drops.  The dictionary is observed through [get] only, and is
    modelled by its lookup function. *)

Definition NUL : ascii := ascii_of_nat 0.

Definition dict : Type := string -> option string.

Definition empty_dict : dict := fun _ => None.

(** [d.update({var: value})] *)
Definition dict_update (d : dict) (var value : string) : dict :=
  fun k => if String.eqb k var then Some value else d k.

(** [env_pair.split("=", 1)] unpacked into two names: [None] stands for
    the [ValueError] of a list of one element. *)
Fixpoint split_once (sep : ascii) (s : string) : option (string * string) :=
  match s with
  | EmptyString => None
  | String c s' =>
      if Ascii.eqb c sep then Some ("", s')
      else match split_once sep s' with
           | Some (var, value) => Some (String c var, value)
           | None => None
           end
  end.

(** The body of the loop over the pieces. *)
Definition store_pair (client_environment : dict) (env_pair : string) : dict :=
  if negb (nonempty env_pair) then client_environment
  else match split_once "=" env_pair with
       | Some (var, value) => dict_update client_environment var value
       | None => client_environment
       end.

Definition parse_environment (client_environment_str : string) : dict :=
  fold_left store_pair (PyStr.split NUL client_environment_str) empty_dict.

(** What a client writes for a list of variables: each pair followed by
    a NUL. *)
Fixpoint serialize_environment (vars : list (string * string)) : string :=
  match vars with
  | [] => ""
  | (var, value) :: rest =>
      var ++ "=" ++ value ++ String NUL (serialize_environment rest)
  end.

(** The value that the last pair for [k] gives it. *)
Fixpoint last_binding (vars : list (string * string)) (k : string)
    : option string :=
  match vars with
  | [] => None
  | (var, value) :: rest =>
      match last_binding rest k with
      | Some v => Some v
      | None => if String.eqb k var then Some value else None
      end
  end.

(** [PromptPartContainer.add]; the container is a value here, and the
    result is the container with the part at the end of its list. *)
Definition container_add (c : PromptPartContainer) (part : ref)
    : PromptPartContainer :=
  {| separator := separator c; parts := parts c ++ [part] |}.

(** ** The tag test as the specification words it

    [X] is a tag name: one of the lines of the tag listing. *)
Definition listed_tag (X tags : string) : bool :=
  existsb (String.eqb X) (PyStr.split Re.nl tags).

(** ** Sample contexts *)

Definition sample_git : Git :=
  {| git_status := Ok sample_status;
     git_branch := Ok ("* main" ++ newline ++ "  dev" ++ newline);
     git_tag := Ok "" |}.

(** A shell in a clean state: both commands have a prompt to render. *)
Definition sample_context : Context :=
  {| HOME := "/home/u"; PWD := "/home/u/src"; LAST_CMD := "ls";
     LAST_EXIT_CODE := 0;
     VIRTUAL_ENV := None; CONDA_DEFAULT_ENV := None; NODE_VIRTUAL_ENV := None;
     COLS := 60; git := sample_git;
     now := {| hour := 9; minute := 5; second := 30 |} |}.

(** The same shell after a long command, in a narrow terminal. *)
Definition narrow_context : Context :=
  {| HOME := "/home/u"; PWD := "/home/u/src";
     LAST_CMD := "git log --oneline --graph --decorate --all";
     LAST_EXIT_CODE := 0;
     VIRTUAL_ENV := None; CONDA_DEFAULT_ENV := None; NODE_VIRTUAL_ENV := None;
     COLS := 40; git := sample_git;
     now := {| hour := 9; minute := 5; second := 30 |} |}.

(** The sample shell after a command with a backslash; the fill stays
    even. *)
Definition backslash_context : Context :=
  {| HOME := "/home/u"; PWD := "/home/u/src";
     LAST_CMD := "a" ++ backslash ++ "b";
     LAST_EXIT_CODE := 0;
     VIRTUAL_ENV := None; CONDA_DEFAULT_ENV := None; NODE_VIRTUAL_ENV := None;
     COLS := 61; git := sample_git;
     now := {| hour := 9; minute := 5; second := 30 |} |}.

(** The sample shell in a terminal one column wider: the fill is odd. *)
Definition odd_fill_context : Context :=
  {| HOME := "/home/u"; PWD := "/home/u/src"; LAST_CMD := "ls";
     LAST_EXIT_CODE := 0;
     VIRTUAL_ENV := None; CONDA_DEFAULT_ENV := None; NODE_VIRTUAL_ENV := None;
     COLS := 61; git := sample_git;
     now := {| hour := 9; minute := 5; second := 30 |} |}.

(** The sample shell with a Python environment active, after a command
    that failed. *)
Definition venv_context : Context :=
  {| HOME := "/home/u"; PWD := "/home/u/src"; LAST_CMD := "ls";
     LAST_EXIT_CODE := 2;
     VIRTUAL_ENV := Some "/home/u/venvs/py3";
     CONDA_DEFAULT_ENV := None; NODE_VIRTUAL_ENV := None;
     COLS := 60; git := sample_git;
     now := {| hour := 9; minute := 5; second := 30 |} |}.

(** ** Sample inputs *)

(** A centre of two fragments around the default separator. *)
Definition two_part_store : store :=
  store_of [ColoredTextFragment "a" default; ColoredTextFragment "b" default].
Definition two_part_center : PromptPartContainer :=
  {| separator := RULE_CHAR; parts := [0; 1]%nat |}.

(** Left and right fragments of eight characters each, for a terminal
    of ten columns. *)
Definition wide_store : store :=
  store_of [ColoredTextFragment "12345678" blue;
            ColoredTextFragment "abcdefgh" gray;
            ColoredTextFragment "(x)" teal].
Definition wide_left : PromptPartContainer :=
  {| separator := ""; parts := [0]%nat |}.
Definition wide_center : PromptPartContainer :=
  {| separator := RULE_CHAR; parts := [2]%nat |}.
Definition wide_right : PromptPartContainer :=
  {| separator := RULE_CHAR; parts := [1]%nat |}.

(** The example of the specification: widths 4, 2 and 4 in a terminal
    of 20 columns, and the same in 17 columns for an odd fill. *)
Definition spec_store : store :=
  store_of [ColoredTextFragment "left" blue;
            ColoredTextFragment "mi" teal;
            ColoredTextFragment "rght" gray].
Definition spec_left : PromptPartContainer :=
  {| separator := ""; parts := [0]%nat |}.
Definition spec_center : PromptPartContainer :=
  {| separator := RULE_CHAR; parts := [1]%nat |}.
Definition spec_right : PromptPartContainer :=
  {| separator := RULE_CHAR; parts := [2]%nat |}.

(** * Properties *)

(** ** Strings *)

Section StringFacts.

Lemma length_append (a b : string) :
  String.length (a ++ b) = (String.length a + String.length b)%nat.
Proof. induction a as [|x a IH]; simpl; [reflexivity | now rewrite IH]. Qed.

Lemma append_nil_r (a : string) : a ++ "" = a.
Proof. induction a as [|x a IH]; simpl; [reflexivity | now rewrite IH]. Qed.

Lemma append_assoc (a b c : string) : (a ++ b) ++ c = a ++ b ++ c.
Proof. induction a as [|x a IH]; simpl; [reflexivity | now rewrite IH]. Qed.

Lemma len_append (a b : string) :
  PyStr.len (a ++ b) = (PyStr.len a + PyStr.len b)%Z.
Proof. unfold PyStr.len. rewrite length_append. lia. Qed.

Lemma len_nonneg (a : string) : (0 <= PyStr.len a)%Z.
Proof. unfold PyStr.len. lia. Qed.

Lemma length_repeat_nat (s : string) (n : nat) :
  String.length (PyStr.repeat_nat s n) = (n * String.length s)%nat.
Proof.
  induction n as [|n IH]; simpl; [reflexivity|].
  rewrite length_append, IH. reflexivity.
Qed.

Lemma len_mul (s : string) (n : Z) :
  (0 <= n)%Z -> PyStr.len (PyStr.mul s n) = (n * PyStr.len s)%Z.
Proof.
  intros Hn. unfold PyStr.len, PyStr.mul. rewrite length_repeat_nat. nia.
Qed.

End StringFacts.

(** ** The store after the first loop of the compositor *)

Section Marking.

Lemma mark_fields (rs : list ref) (st : store) (r : ref) :
  content (mark rs st r) = content (st r)
  /\ color (mark rs st r) = color (st r)
  /\ last_cmd (mark rs st r) = last_cmd (st r).
Proof.
  revert st. induction rs as [|x rs IH]; intros st; simpl; [auto|].
  destruct (IH (upd st x (set_zero_width false (st x)))) as (Hc & Hk & Hl).
  fold (mark rs (upd st x (set_zero_width false (st x)))).
  rewrite Hc, Hk, Hl. unfold upd.
  destruct (Nat.eqb_spec r x) as [->|]; simpl; auto.
Qed.

Lemma mark_zero_width_out (rs : list ref) (st : store) (r : ref) :
  ~ In r rs -> zero_width (mark rs st r) = zero_width (st r).
Proof.
  revert st. induction rs as [|x rs IH]; intros st Hin; simpl; [reflexivity|].
  fold (mark rs (upd st x (set_zero_width false (st x)))).
  rewrite IH by (intros H; apply Hin; now right).
  unfold upd. destruct (Nat.eqb_spec r x) as [->|]; [|reflexivity].
  exfalso. apply Hin. now left.
Qed.

Lemma mark_zero_width_false (rs : list ref) (st : store) (r : ref) :
  zero_width (st r) = false -> zero_width (mark rs st r) = false.
Proof.
  revert st. induction rs as [|x rs IH]; intros st H; simpl; [assumption|].
  fold (mark rs (upd st x (set_zero_width false (st x)))).
  apply IH. unfold upd. destruct (Nat.eqb_spec r x); [reflexivity | assumption].
Qed.

Lemma mark_zero_width_in (rs : list ref) (st : store) (r : ref) :
  In r rs -> zero_width (mark rs st r) = false.
Proof.
  revert st. induction rs as [|x rs IH]; intros st Hin; simpl; [destruct Hin|].
  fold (mark rs (upd st x (set_zero_width false (st x)))).
  destruct (Nat.eq_dec x r) as [->|Hne].
  - apply mark_zero_width_false. unfold upd. now rewrite Nat.eqb_refl.
  - apply IH. destruct Hin; [contradiction | assumption].
Qed.

Lemma for_each_modify (rs : list ref) (st : store) :
  for_each rs (fun part => modify part (set_zero_width false)) st
  = (Ok tt, mark rs st).
Proof.
  revert st. induction rs as [|x rs IH]; intros st; [reflexivity|].
  simpl. unfold bind at 1. unfold modify at 1. apply IH.
Qed.

Lemma disable_zero_width_three (l c r : PromptPartContainer) (st : store) :
  disable_zero_width [l; c; r] st = (Ok tt, top_line_store st l c r).
Proof.
  unfold disable_zero_width, top_line_store. simpl. unfold bind.
  rewrite !for_each_modify. reflexivity.
Qed.

Lemma top_line_fields (st : store) (l c r : PromptPartContainer) (x : ref) :
  content (top_line_store st l c r x) = content (st x)
  /\ color (top_line_store st l c r x) = color (st x)
  /\ last_cmd (top_line_store st l c r x) = last_cmd (st x).
Proof.
  unfold top_line_store.
  destruct (mark_fields (parts r) (mark (parts c) (mark (parts l) st)) x)
    as (-> & -> & ->).
  destruct (mark_fields (parts c) (mark (parts l) st) x) as (-> & -> & ->).
  apply mark_fields.
Qed.

Lemma top_line_zero_width_in (st : store) (l c r : PromptPartContainer) (x : ref) :
  In x (parts l ++ parts c ++ parts r) ->
  zero_width (top_line_store st l c r x) = false.
Proof.
  unfold top_line_store. rewrite !in_app_iff. intros [H|[H|H]].
  - do 2 apply mark_zero_width_false. now apply mark_zero_width_in.
  - apply mark_zero_width_false. now apply mark_zero_width_in.
  - now apply mark_zero_width_in.
Qed.

Lemma top_line_zero_width_out (st : store) (l c r : PromptPartContainer) (x : ref) :
  ~ In x (parts l ++ parts c ++ parts r) ->
  zero_width (top_line_store st l c r x) = zero_width (st x).
Proof.
  unfold top_line_store. rewrite !in_app_iff. intros H.
  rewrite !mark_zero_width_out; tauto.
Qed.

End Marking.

(** ** Containers read the text of fragments only *)

Section Containers.

Lemma same_text_top_line (st : store) (l c r : PromptPartContainer) :
  same_text (top_line_store st l c r) st.
Proof. intros x. destruct (top_line_fields st l c r x) as (? & ? & ?). auto. Qed.

Lemma same_text_uncolored (st : store) : same_text (uncolored st) st.
Proof. intros x. split; reflexivity. Qed.

Lemma container_len_same (st1 st2 : store) (c : PromptPartContainer) :
  same_text st1 st2 -> container_len st1 c = container_len st2 c.
Proof.
  intros H. unfold container_len. induction (parts c) as [|x xs IH]; simpl;
    [reflexivity|].
  rewrite IH. f_equal. unfold part_len.
  destruct (H x) as [-> ->]. reflexivity.
Qed.

Lemma uncolorized_str_same (st1 st2 : store) (c : PromptPartContainer) :
  same_text st1 st2 -> uncolorized_str st1 c = uncolorized_str st2 c.
Proof.
  intros H. unfold uncolorized_str. f_equal.
  induction (parts c) as [|x xs IH]; simpl; [reflexivity|].
  destruct (H x) as [-> _].
  destruct (nonempty (content (st2 x))); simpl; rewrite IH; [|reflexivity].
  destruct (H x) as [-> _]. reflexivity.
Qed.

(** A rendered fragment is its content between two escape sequences,
    and the content alone when the colour is the default one. *)
Lemma part_str_wraps_content (p : PromptPart) :
  exists opening closing : string,
    part_str p = opening ++ content p ++ closing
    /\ (color p = default -> opening = "" /\ closing = "").
Proof.
  unfold part_str, colorize. cbn [NO_COLOR].
  destruct (value (color p) =? 0)%Z eqn:V.
  - exists "", "". rewrite append_nil_r. auto.
  - assert (N : color p <> default) by (intros E; now rewrite E in V).
    destruct (zero_width p).
    + exists ("%{\e[38;5;" ++ PyStr.of_Z (value (color p)) ++ "m%}"),
        "%{\e[0;m%}".
      rewrite !append_assoc. split; [reflexivity | tauto].
    + exists ("\e[38;5;" ++ PyStr.of_Z (value (color p)) ++ "m"), "\e[0;m".
      rewrite !append_assoc. split; [reflexivity | tauto].
Qed.

(** Without colours, [__str__] is [uncolorized_str]. *)
Lemma container_str_default (st : store) (c : PromptPartContainer) :
  (forall x, color (st x) = default) ->
  container_str st c = uncolorized_str st c.
Proof.
  intros H. unfold container_str, uncolorized_str. f_equal.
  apply map_ext. intros x. unfold part_str. now rewrite H.
Qed.

Lemma container_str_uncolored (st : store) (l c r k : PromptPartContainer) :
  container_str (top_line_store (uncolored st) l c r) k = uncolorized_str st k.
Proof.
  rewrite container_str_default.
  - apply uncolorized_str_same. intros x.
    destruct (same_text_top_line (uncolored st) l c r x) as [-> ->].
    split; reflexivity.
  - intros x. destruct (top_line_fields (uncolored st) l c r x) as (_ & -> & _).
    reflexivity.
Qed.

End Containers.

(** ** The compositor of the server *)

Section ServerRule.

Variables (w : Z) (l c r : PromptPartContainer) (rule_char : string).

Lemma server_embed_run (st : store) :
  Server.embed_in_horizontal_rule w l c r rule_char st =
  let st' := top_line_store st l c r in
  let fill := fill_of w l c r st in
  (Ok (container_str st' l
       ++ (if (0 <? fill)%Z
           then PyStr.mul rule_char (fill / 2 + fill mod 2)
                ++ container_str st' c ++ PyStr.mul rule_char (fill / 2)
           else container_str st' c)
       ++ container_str st' r), st').
Proof.
  unfold Server.embed_in_horizontal_rule, bind.
  rewrite disable_zero_width_three. cbn [get_store ret].
  unfold fill_of.
  rewrite !(container_len_same _ _ _ (same_text_top_line st l c r)).
  reflexivity.
Qed.

(** Overflow on the server: nothing is added and nothing is cut. *)
Lemma server_overflow_unpadded (st : store) :
  (fill_of w l c r st <= 0)%Z ->
  Server.embed_in_horizontal_rule w l c r rule_char st =
  let st' := top_line_store st l c r in
  (Ok (container_str st' l ++ container_str st' c ++ container_str st' r), st').
Proof.
  intros H. rewrite server_embed_run. cbv zeta.
  destruct (Z.ltb_spec 0 (fill_of w l c r st)); [lia | reflexivity].
Qed.

Lemma server_visible_width (st : store) :
  (0 < fill_of w l c r st)%Z ->
  visible_width (Server.embed_in_horizontal_rule w l c r rule_char) st =
  (PyStr.len (uncolorized_str st l) + PyStr.len (uncolorized_str st c)
   + PyStr.len (uncolorized_str st r) + fill_of w l c r st * PyStr.len rule_char)%Z.
Proof.
  intros H. unfold visible_width. rewrite server_embed_run. cbv zeta.
  cbn [fst].
  assert (E : fill_of w l c r (uncolored st) = fill_of w l c r st).
  { unfold fill_of.
    now rewrite !(container_len_same _ _ _ (same_text_uncolored st)). }
  rewrite E. destruct (Z.ltb_spec 0 (fill_of w l c r st)); [|lia].
  rewrite !container_str_uncolored, !len_append.
  pose proof (Z.div_mod (fill_of w l c r st) 2 ltac:(lia)) as D.
  pose proof (Z.mod_pos_bound (fill_of w l c r st) 2 ltac:(lia)) as B.
  assert (0 <= fill_of w l c r st / 2)%Z by (apply Z.div_pos; lia).
  rewrite !len_mul by lia. nia.
Qed.

End ServerRule.

(** ** C1: the fill of the horizontal rule *)

(** C1, as stated, fails: a centre of two fragments ["a"] and ["b"]
    with the default separator has display width 2, so in a terminal of
    10 columns the fill is 8, and the line, four rule characters on each
    side of ["a~b"], shows 11 characters. *)
Lemma rule_visible_width_counterexample :
  (0 < fill_of 10 empty_container two_part_center empty_container
         two_part_store)%Z
  /\ fst (Server.embed_in_horizontal_rule 10 empty_container two_part_center
            empty_container RULE_CHAR two_part_store) = Ok "~~~~a~b~~~~"
  /\ visible_width
       (Server.embed_in_horizontal_rule 10 empty_container two_part_center
          empty_container RULE_CHAR) two_part_store <> 10%Z.
Proof.
  split; [reflexivity|]. split; [reflexivity|].
  vm_compute. discriminate.
Qed.

(** C1, amended: when the fill is positive, the server's compositor puts
    [fill // 2 + fill % 2] copies of the rule character before the
    rendered centre and [fill // 2] after it, which is [fill] copies in
    all; the line shows the terminal width, plus what the plain text of
    each container has over its display width, plus [fill] times what
    the rule character has over one character: exactly the terminal
    width when the rule character has length one and every container's
    plain text is as long as its display width. *)
Theorem rule_fill_split_visible_width
    (w : Z) (l c r : PromptPartContainer) (rule_char : string) (st : store) :
  (0 < fill_of w l c r st)%Z ->
  let fill := fill_of w l c r st in
  let st' := top_line_store st l c r in
  Server.embed_in_horizontal_rule w l c r rule_char st
  = (Ok (container_str st' l
         ++ (PyStr.mul rule_char (fill / 2 + fill mod 2)
             ++ container_str st' c ++ PyStr.mul rule_char (fill / 2))
         ++ container_str st' r), st')
  /\ (fill / 2 + fill mod 2 + fill / 2 = fill)%Z
  /\ visible_width (Server.embed_in_horizontal_rule w l c r rule_char) st
     = (w + (PyStr.len (uncolorized_str st l) - container_len st l)
          + (PyStr.len (uncolorized_str st c) - container_len st c)
          + (PyStr.len (uncolorized_str st r) - container_len st r)
          + fill * (PyStr.len rule_char - 1))%Z.
Proof.
  intros Hfill fill st'. split; [|split].
  - rewrite server_embed_run. cbv zeta. fold fill st'.
    destruct (Z.ltb_spec 0 fill); [reflexivity | unfold fill in *; lia].
  - pose proof (Z.div_mod fill 2 ltac:(lia)). lia.
  - rewrite server_visible_width by assumption.
    unfold fill, fill_of. lia.
Qed.

(** The example of the specification with an odd fill: 17 columns,
    widths 4, 2 and 4, hence four rule characters before the centre and
    three after it. *)
Lemma rule_fill_split_visible_width_witness :
  (0 < fill_of 17 spec_left spec_center spec_right spec_store)%Z
  /\ fst (Server.embed_in_horizontal_rule 17 spec_left spec_center spec_right
            RULE_CHAR spec_store)
     = Ok ("\e[38;5;4mleft\e[0;m" ++ ("~~~~" ++ "\e[38;5;6mmi\e[0;m" ++ "~~~")
           ++ "\e[38;5;21mrght\e[0;m")
  /\ visible_width
       (Server.embed_in_horizontal_rule 17 spec_left spec_center spec_right
          RULE_CHAR) spec_store = 17%Z.
Proof.
  assert (H0 : (0 < fill_of 17 spec_left spec_center spec_right spec_store)%Z)
    by reflexivity.
  destruct (rule_fill_split_visible_width 17 spec_left spec_center spec_right
              RULE_CHAR spec_store H0) as (Hrun & _ & Hvis).
  split; [exact H0|]. split.
  - rewrite Hrun. reflexivity.
  - rewrite Hvis. reflexivity.
Defined.

(** ** C4: overflow of the centre *)

Section OneShotRule.

Variables (w : Z) (l c r : PromptPartContainer) (rule_char : string).

Lemma oneshot_embed_run (st : store) :
  OneShot.embed_in_horizontal_rule w l c r rule_char st =
  let st' := top_line_store st l c r in
  match OneShot.format_center (uncolorized_str st c) rule_char
          (w - container_len st l - container_len st r) with
  | Ok center_str =>
      (Ok (container_str st' l
           ++ PyStr.replace (uncolorized_str st c) (container_str st' c)
                center_str
           ++ container_str st' r), st')
  | Raise e => (Raise e, st')
  end.
Proof.
  unfold OneShot.embed_in_horizontal_rule, bind.
  rewrite disable_zero_width_three. cbn [get_store ret lift].
  rewrite !(container_len_same _ _ _ (same_text_top_line st l c r)).
  rewrite !(uncolorized_str_same _ _ _ (same_text_top_line st l c r)).
  destruct (OneShot.format_center _ _ _); reflexivity.
Qed.

(** In the one-shot command a negative middle budget is a width with a
    minus sign in the format specification, and the centring raises. *)
Lemma oneshot_negative_budget_raises (st : store) :
  (w - container_len st l - container_len st r < 0)%Z ->
  fst (OneShot.embed_in_horizontal_rule w l c r rule_char st)
  = Raise ValueError.
Proof.
  intros H. rewrite oneshot_embed_run. cbv zeta.
  unfold OneShot.format_center.
  destruct (Z.ltb_spec (w - container_len st l - container_len st r) 0);
    [|lia].
  destruct rule_char as [|a [|b k]]; reflexivity.
Qed.

End OneShotRule.

(** C4 at a terminal of 10 columns with a left and a right container of
    8 characters each: the fill is negative; the server returns left,
    unpadded centre and right, and the one-shot command raises
    [ValueError] instead. *)
Theorem oneshot_rule_overflow_raises :
  (fill_of 10 wide_left wide_center wide_right wide_store <= 0)%Z
  /\ fst (Server.embed_in_horizontal_rule 10 wide_left wide_center wide_right
            RULE_CHAR wide_store)
     = Ok ("\e[38;5;4m12345678\e[0;m" ++ "\e[38;5;6m(x)\e[0;m"
           ++ "\e[38;5;21mabcdefgh\e[0;m")
  /\ fst (OneShot.embed_in_horizontal_rule 10 wide_left wide_center wide_right
            RULE_CHAR wide_store)
     = Raise ValueError.
Proof.
  split; [discriminate|]. split.
  - rewrite server_overflow_unpadded by discriminate. reflexivity.
  - apply oneshot_negative_budget_raises. reflexivity.
Qed.

(** The centring of the one-shot command is that of [str.format]: of
    an odd fill, the character in excess goes behind the centre. *)
Lemma oneshot_odd_fill_behind :
  fst (OneShot.embed_in_horizontal_rule 17 spec_left spec_center spec_right
         RULE_CHAR spec_store)
  = Ok ("\e[38;5;4mleft\e[0;m" ++ ("~~~" ++ "\e[38;5;6mmi\e[0;m" ++ "~~~~")
        ++ "\e[38;5;21mrght\e[0;m").
Proof. reflexivity. Qed.

(** ** C9: what the renderer changes in a fragment *)

(** C9, as stated, fails: a fragment is built with [zero_width = True],
    and the composition of the top line leaves it with [False]. *)
Lemma zero_width_mutated_counterexample :
  zero_width (spec_store 1%nat) = true
  /\ zero_width
       (store_after (OpEmbedServer 20 spec_left spec_center spec_right RULE_CHAR)
          spec_store 1%nat) = false.
Proof. split; reflexivity. Qed.

Lemma store_after_embed (op : RendererOp) (st : store) :
  match op with
  | OpEmbedServer _ l c r _ | OpEmbedOneShot _ l c r _ =>
      store_after op st = top_line_store st l c r
  | _ => store_after op st = st
  end.
Proof.
  destruct op as [k|k|k|w l c r rc|w l c r rc]; try reflexivity; simpl.
  - now rewrite server_embed_run.
  - rewrite oneshot_embed_run. cbv zeta.
    destruct (OneShot.format_center _ _ _); reflexivity.
Qed.

Lemma existsb_eqb_In (x : ref) (rs : list ref) :
  existsb (Nat.eqb x) rs = true <-> In x rs.
Proof.
  rewrite existsb_exists. split.
  - intros (y & Hy & E). apply Nat.eqb_eq in E. now subst.
  - intros H. exists x. split; [assumption | apply Nat.eqb_refl].
Qed.

(** C9, amended: no operation of the renderer (joins, plain joins, width
    computations, either composition of the top line) changes the
    content or the colour of any fragment; the composition of the top
    line sets [zero_width] to [False] on every fragment of its three
    containers, and [zero_width] is unchanged everywhere else. *)
Theorem renderer_preserves_content_color
    (op : RendererOp) (st : store) (x : ref) :
  content (store_after op st x) = content (st x)
  /\ color (store_after op st x) = color (st x)
  /\ zero_width (store_after op st x)
     = if existsb (Nat.eqb x) (embedded_parts op) then false
       else zero_width (st x).
Proof.
  pose proof (store_after_embed op st) as H.
  assert (T : forall l c r,
             content (top_line_store st l c r x) = content (st x)
             /\ color (top_line_store st l c r x) = color (st x)
             /\ zero_width (top_line_store st l c r x)
                = if existsb (Nat.eqb x) (parts l ++ parts c ++ parts r)
                  then false else zero_width (st x)).
  { intros l c r. destruct (top_line_fields st l c r x) as (Hc & Hk & _).
    repeat split; try assumption.
    destruct (existsb (Nat.eqb x) (parts l ++ parts c ++ parts r)) eqn:E.
    - apply top_line_zero_width_in. now apply existsb_eqb_In.
    - apply top_line_zero_width_out. intros Hin.
      apply existsb_eqb_In in Hin. congruence. }
  destruct op as [k|k|k|w l c r rc|w l c r rc]; rewrite H; simpl;
    auto; apply T.
Qed.

(** ** Prefixes and substrings *)

Section Prefix.

Lemma prefix_nil (s : string) : prefix "" s = true.
Proof. destruct s; reflexivity. Qed.

Lemma prefix_cons (a b : ascii) (k s : string) :
  prefix (String a k) (String b s) = Ascii.eqb a b && prefix k s.
Proof.
  simpl. destruct (ascii_dec a b) as [->|N].
  - now rewrite Ascii.eqb_refl.
  - apply Ascii.eqb_neq in N. now rewrite N.
Qed.

Lemma prefix_app (a b : string) : prefix a (a ++ b) = true.
Proof.
  induction a as [|x a IH]; [apply prefix_nil|].
  cbn [append]. rewrite prefix_cons, Ascii.eqb_refl. exact IH.
Qed.

Lemma prefix_iff (a s : string) :
  prefix a s = true <-> exists b, s = a ++ b.
Proof.
  split.
  - revert s. induction a as [|x a IH]; intros s H.
    + exists s. reflexivity.
    + destruct s as [|y s]; [discriminate|].
      rewrite prefix_cons in H. apply andb_true_iff in H as [E H].
      apply Ascii.eqb_eq in E. subst y.
      destruct (IH s H) as [b ->]. exists b. reflexivity.
  - intros [b ->]. apply prefix_app.
Qed.

(** [needle in hay] is the substring test. *)
Lemma contains_iff (needle hay : string) :
  PyStr.contains needle hay = true
  <-> exists pre post, hay = pre ++ needle ++ post.
Proof.
  split.
  - induction hay as [|c hay IH]; cbn [PyStr.contains]; intros H.
    + rewrite orb_false_r in H. apply prefix_iff in H as [b ->].
      exists "", b. reflexivity.
    + apply orb_true_iff in H as [H|H].
      * apply prefix_iff in H as [b Hb]. exists "", b. exact Hb.
      * destruct (IH H) as (pre & post & ->).
        exists (String c pre), post. reflexivity.
  - intros (pre & post & ->). induction pre as [|c pre IH].
    + cbn [append]. destruct (needle ++ post) eqn:E; cbn [PyStr.contains];
        rewrite <- E, prefix_app; reflexivity.
    + cbn [append PyStr.contains]. rewrite IH. apply orb_true_r.
Qed.

End Prefix.

(** ** C2: the modifier string *)

Section StatusLines.

Lemma line_rest_cons (c : ascii) (s : string) :
  Re.line_rest (String c s)
  = if Ascii.eqb c Re.nl then "" else String c (Re.line_rest s).
Proof. reflexivity. Qed.

(** A literal without a newline is looked for in the first line only. *)
Lemma prefix_line_rest (literal s : string) :
  PyStr.mem Re.nl literal = false ->
  prefix literal (Re.line_rest s) = prefix literal s.
Proof.
  revert s. induction literal as [|a k IH]; intros s H.
  - now rewrite !prefix_nil.
  - cbn [PyStr.mem] in H. apply orb_false_iff in H as [Ha Hk].
    destruct s as [|c s]; [reflexivity|].
    rewrite line_rest_cons. destruct (Ascii.eqb_spec c Re.nl) as [->|Hc].
    + rewrite prefix_cons, Ha. reflexivity.
    + rewrite !prefix_cons, IH by assumption. reflexivity.
Qed.

Lemma split_line_rest (s : string) :
  PyStr.split Re.nl s = Re.line_rest s :: tl (PyStr.split Re.nl s).
Proof.
  induction s as [|c s IH]; [reflexivity|].
  cbn [PyStr.split]. rewrite line_rest_cons.
  destruct (Ascii.eqb c Re.nl); [reflexivity|].
  rewrite IH. reflexivity.
Qed.

Lemma split_cons_other (c : ascii) (s : string) :
  Ascii.eqb c Re.nl = false ->
  PyStr.split Re.nl (String c s)
  = String c (Re.line_rest s) :: tl (PyStr.split Re.nl s).
Proof.
  intros H. cbn [PyStr.split]. rewrite H, split_line_rest. reflexivity.
Qed.

Variable re : Re.line_re.
Hypothesis lit_one_line : PyStr.mem Re.nl (Re.lit re) = false.
Hypothesis lit_nonempty : nonempty (Re.lit re) = true.

Lemma match_here_nil : Re.match_here re "" = false.
Proof.
  unfold Re.match_here. destruct (Re.lit re); [discriminate|].
  now rewrite andb_false_r.
Qed.

Lemma match_here_first_line (c : ascii) (s : string) :
  Ascii.eqb c Re.nl = false ->
  Re.match_here re (String c (Re.line_rest s)) = Re.match_here re (String c s).
Proof.
  intros Hc. unfold Re.match_here.
  rewrite <- (prefix_line_rest (Re.lit re) (String c s)) by assumption.
  rewrite line_rest_cons, Hc.
  rewrite (prefix_line_rest (Re.lit re) s) by assumption. reflexivity.
Qed.

Lemma match_here_search (s : string) :
  Re.match_here re s = true -> Re.search_from re true s = true.
Proof.
  intros H. destruct s; cbn [Re.search_from]; rewrite H; reflexivity.
Qed.

(** The optional blank may be a newline; the match then starts the next
    line. *)
Lemma match_here_newline (s : string) :
  Re.match_here re (String Re.nl s) = true -> Re.search_from re true s = true.
Proof.
  unfold Re.match_here at 1. intros H. apply match_here_search.
  destruct (Re.lit re) as [|a k] eqn:E; [discriminate|].
  pose proof lit_one_line as L. rewrite ?E in L. cbn [PyStr.mem] in L.
  apply orb_false_iff in L as [Ha _].
  rewrite prefix_cons, Ha in H. cbn [andb orb] in H.
  apply andb_true_iff in H as [_ H]. apply andb_true_iff in H as [_ H].
  unfold Re.match_here. rewrite E, H. reflexivity.
Qed.

(** The search under [MULTILINE] is a search line by line. *)
Lemma search_from_lines (s : string) :
  Re.search_from re true s
  = existsb (Re.match_here re) (PyStr.split Re.nl s)
  /\ Re.search_from re false s
     = existsb (Re.match_here re) (tl (PyStr.split Re.nl s)).
Proof.
  induction s as [|c s [IHt IHf]].
  - split; [|reflexivity]. cbn. now rewrite orb_false_r.
  - cbn [Re.search_from andb orb].
    destruct (Ascii.eqb c Re.nl) eqn:Hc.
    + apply Ascii.eqb_eq in Hc. subst c.
      assert (E : PyStr.split Re.nl (String Re.nl s)
                  = "" :: PyStr.split Re.nl s) by reflexivity.
      rewrite E. cbn [existsb tl]. rewrite match_here_nil, <- IHt.
      split; [|reflexivity]. cbn [orb].
      destruct (Re.match_here re (String Re.nl s)) eqn:M; [|reflexivity].
      now rewrite (match_here_newline s M).
    + rewrite split_cons_other by assumption. cbn [existsb tl].
      rewrite match_here_first_line, <- IHf by assumption.
      split; reflexivity.
Qed.

Lemma search_multiline_lines (s : string) :
  Re.search_multiline re s = true
  <-> exists line, In line (PyStr.split Re.nl s)
                   /\ Re.match_here re line = true.
Proof.
  unfold Re.search_multiline.
  destruct (search_from_lines s) as [-> _]. apply existsb_exists.
Qed.

End StatusLines.

Lemma bucket_matches_line (m : Mod) (status_str : string) :
  Re.search_multiline (mod_indicator_re m) status_str = true
  <-> exists line, In line (status_lines status_str)
                   /\ in_bucket m line = true.
Proof. apply search_multiline_lines; destruct m; reflexivity. Qed.

Lemma In_existsb_string (x : string) (l : list string) :
  In x l <-> existsb (String.eqb x) l = true.
Proof.
  rewrite existsb_exists. split.
  - intros H. exists x. split; [assumption | apply String.eqb_refl].
  - intros (y & Hy & E). apply String.eqb_eq in E. now subst.
Qed.

(** C2, as stated, fails on its example: the glyphs are sorted by code
    point, and ["!"] (33) comes before ["+"] (43). *)
Lemma modifier_example_counterexample :
  modifier_string sample_status <> "|+!?|".
Proof. vm_compute. discriminate. Qed.

(** C2, amended: the modifier string is the glyphs, one for each bucket
    in which some line of the status text falls, in strictly increasing
    order of code point (so each at most once), joined with nothing
    between them and put between bars when there is one at least; for
    the three lines of the example it is [|!+?|], and a second added
    file changes nothing. *)
Theorem modifier_string_sorted_glyphs :
  (forall status_str : string,
     let glyphs := sorted (map indicators (mod_info_of status_str)) in
     modifier_string status_str
     = match glyphs with
       | [] => ""
       | _ :: _ => "|" ++ PyStr.join "" glyphs ++ "|"
       end
     /\ Sorted.StronglySorted (fun a b => String.ltb a b = true) glyphs
     /\ forall m : Mod,
          In (indicators m) glyphs
          <-> exists line, In line (status_lines status_str)
                           /\ in_bucket m line = true)
  /\ modifier_string sample_status = "|!+?|"
  /\ modifier_string sample_status_two_added = "|!+?|".
Proof.
  split; [|split; reflexivity].
  intros status_str glyphs. subst glyphs.
  assert (M : forall m, In (indicators m)
                          (sorted (map indicators (mod_info_of status_str)))
                        <-> Re.search_multiline (mod_indicator_re m) status_str
                            = true).
  { intros m. rewrite In_existsb_string.
    unfold mod_info_of, mods. cbn [filter].
    destruct (Re.search_multiline (mod_indicator_re added) status_str) eqn:Ea,
             (Re.search_multiline (mod_indicator_re modified) status_str) eqn:Em,
             (Re.search_multiline (mod_indicator_re deleted) status_str) eqn:Ed,
             (Re.search_multiline (mod_indicator_re unknown) status_str) eqn:Eu;
      destruct m; rewrite ?Ea, ?Em, ?Ed, ?Eu; split; intros H;
      try reflexivity; try discriminate H. }
  split; [|split].
  - unfold modifier_string, mod_str_of, mod_info_of, mods. cbn [filter].
    destruct (Re.search_multiline (mod_indicator_re added) status_str),
             (Re.search_multiline (mod_indicator_re modified) status_str),
             (Re.search_multiline (mod_indicator_re deleted) status_str),
             (Re.search_multiline (mod_indicator_re unknown) status_str);
      reflexivity.
  - unfold mod_info_of, mods. cbn [filter].
    destruct (Re.search_multiline (mod_indicator_re added) status_str),
             (Re.search_multiline (mod_indicator_re modified) status_str),
             (Re.search_multiline (mod_indicator_re deleted) status_str),
             (Re.search_multiline (mod_indicator_re unknown) status_str);
      cbn; repeat (constructor; try reflexivity).
  - intros m. rewrite M. apply bucket_matches_line.
Qed.

(** ** C10: the tag check *)

(** C10: [is_tag] holds of a head name exactly when the name occurs
    somewhere in the text of the tag listing, whole tag or not; the head
    [1.2] of a repository whose only tag is [v1.2.3] is classified as a
    tag. *)
Theorem tag_check_is_substring :
  (forall X tags : string,
     is_tag_of X tags = true <-> exists pre post, tags = pre ++ X ++ post)
  /\ (forall (git : Git) (X tags : string),
        git_tag git = Ok tags -> is_tag git X = Ok (PyStr.contains X tags))
  /\ head_descriptor ("* (HEAD detached at 1.2)" ++ newline)
       ("v1.2.3" ++ newline) = Ok "(T) 1.2".
Proof.
  split; [|split].
  - intros X tags. apply contains_iff.
  - intros git X tags H. unfold is_tag. rewrite H. reflexivity.
  - reflexivity.
Qed.

Lemma tag_check_is_substring_witness :
  git_tag (mkGit (Ok "") (Ok "") (Ok "v1.2.3")) = Ok "v1.2.3"
  /\ is_tag (mkGit (Ok "") (Ok "") (Ok "v1.2.3")) "1.2" = Ok true.
Proof.
  split; [reflexivity|].
  destruct tag_check_is_substring as (_ & H & _).
  rewrite (H (mkGit (Ok "") (Ok "") (Ok "v1.2.3")) "1.2" "v1.2.3" eq_refl).
  reflexivity.
Defined.

(** ** C3: the head descriptor *)

Section HeadSearch.

Lemma drop_app (a b : string) : PyStr.drop (String.length a) (a ++ b) = b.
Proof. induction a as [|x a IH]; [destruct b; reflexivity | exact IH]. Qed.

Lemma line_rest_app (a b : string) :
  PyStr.mem Re.nl a = false -> Re.line_rest (a ++ b) = a ++ Re.line_rest b.
Proof.
  induction a as [|x a IH]; intros H; [reflexivity|].
  cbn [PyStr.mem] in H. apply orb_false_iff in H as [Hx Ha].
  cbn [append]. rewrite line_rest_cons, Hx, IH by assumption. reflexivity.
Qed.

Lemma upto_last_absent (c : ascii) (s : string) :
  PyStr.mem c s = false -> Re.upto_last c s = None.
Proof.
  induction s as [|a s IH]; intros H; [reflexivity|].
  cbn [PyStr.mem] in H. apply orb_false_iff in H as [Ha Hs].
  cbn [Re.upto_last]. now rewrite IH, Ha.
Qed.

Lemma upto_last_app (c : ascii) (x rest : string) :
  PyStr.mem c rest = false ->
  Re.upto_last c (x ++ String c rest) = Some x.
Proof.
  intros H. induction x as [|a x IH]; cbn [append Re.upto_last].
  - now rewrite upto_last_absent, Ascii.eqb_refl.
  - now rewrite IH.
Qed.

Lemma upto_last_present (c : ascii) (x rest : string) :
  exists y, Re.upto_last c (x ++ String c rest) = Some y.
Proof.
  induction x as [|a x [y IH]]; cbn [append Re.upto_last].
  - destruct (Re.upto_last c rest); [eauto|].
    rewrite Ascii.eqb_refl. eauto.
  - rewrite IH. eauto.
Qed.

Lemma search_group_paren_eq (literal s : string) :
  Re.search_group_paren literal s =
  match
    (if prefix literal s
     then Re.upto_last ")" (Re.line_rest (PyStr.drop (String.length literal) s))
     else None)
  with
  | Some g => Some g
  | None =>
      match s with
      | EmptyString => None
      | String _ s' => Re.search_group_paren literal s'
      end
  end.
Proof. destruct s; reflexivity. Qed.

Lemma search_group_eq (literal s : string) :
  Re.search_group literal s =
  if prefix literal s
  then Some (Re.line_rest (PyStr.drop (String.length literal) s))
  else match s with
       | EmptyString => None
       | String _ s' => Re.search_group literal s'
       end.
Proof. destruct s; reflexivity. Qed.

Variables (c : ascii) (k : string).

(** No match of a literal starts where its first character is not. *)
Lemma search_group_paren_skip (pre s : string) :
  PyStr.mem c pre = false ->
  Re.search_group_paren (String c k) (pre ++ s)
  = Re.search_group_paren (String c k) s.
Proof.
  induction pre as [|x pre IH]; intros H; [reflexivity|].
  cbn [PyStr.mem] in H. apply orb_false_iff in H as [Hx Hp].
  cbn [append]. rewrite search_group_paren_eq, prefix_cons.
  rewrite Ascii.eqb_sym, Hx. cbn [andb]. now apply IH.
Qed.

Lemma search_group_skip (pre s : string) :
  PyStr.mem c pre = false ->
  Re.search_group (String c k) (pre ++ s) = Re.search_group (String c k) s.
Proof.
  induction pre as [|x pre IH]; intros H; [reflexivity|].
  cbn [PyStr.mem] in H. apply orb_false_iff in H as [Hx Hp].
  cbn [append]. rewrite search_group_eq, prefix_cons.
  rewrite Ascii.eqb_sym, Hx. cbn [andb]. now apply IH.
Qed.

End HeadSearch.

Lemma append_cons (x : ascii) (a b : string) :
  String x a ++ b = String x (a ++ b).
Proof. reflexivity. Qed.

Lemma line_rest_paren (post : string) :
  Re.line_rest (")" ++ post) = String ")" (Re.line_rest post).
Proof. reflexivity. Qed.

Lemma search_commit_or_tag_line (pre X post : string) :
  PyStr.mem "*" pre = false -> PyStr.mem Re.nl X = false ->
  Re.line_rest post = "" ->
  search_commit_or_tag (pre ++ "* (HEAD detached at " ++ X ++ ")" ++ post)
  = Some X.
Proof.
  intros Hpre HX Hpost. unfold search_commit_or_tag.
  rewrite search_group_paren_skip by assumption.
  rewrite search_group_paren_eq, prefix_app, drop_app.
  rewrite line_rest_app, line_rest_paren by assumption.
  rewrite Hpost, upto_last_app by reflexivity. reflexivity.
Qed.

Lemma search_commit_or_tag_anywhere (pre X post : string) :
  PyStr.mem Re.nl X = false ->
  exists Y,
    search_commit_or_tag (pre ++ "* (HEAD detached at " ++ X ++ ")" ++ post)
    = Some Y.
Proof.
  intros HX. unfold search_commit_or_tag.
  induction pre as [|x pre [Y IH]].
  - change (exists Y,
              Re.search_group_paren "* (HEAD detached at "
                ("* (HEAD detached at " ++ X ++ ")" ++ post) = Some Y).
    rewrite search_group_paren_eq.
    rewrite prefix_app, drop_app, line_rest_app by assumption.
    rewrite line_rest_paren.
    destruct (upto_last_present ")" X (Re.line_rest post)) as [Y ->]. eauto.
  - rewrite append_cons, search_group_paren_eq, IH.
    destruct (if prefix _ _ then _ else None); eauto.
Qed.

Lemma search_regular_branch_line (pre name post : string) :
  PyStr.mem "*" pre = false -> PyStr.mem Re.nl name = false ->
  Re.line_rest post = "" ->
  search_regular_branch (pre ++ "* " ++ name ++ post) = Some name.
Proof.
  intros Hpre Hname Hpost. unfold search_regular_branch.
  rewrite search_group_skip by assumption.
  rewrite search_group_eq, prefix_app, drop_app.
  rewrite line_rest_app, Hpost, append_nil_r by assumption. reflexivity.
Qed.

Lemma no_star_no_head (listing : string) :
  PyStr.contains "* " listing = false ->
  search_commit_or_tag listing = None /\ search_regular_branch listing = None.
Proof.
  unfold search_commit_or_tag, search_regular_branch.
  induction listing as [|x s IH]; intros H; [split; reflexivity|].
  cbn [PyStr.contains] in H. apply orb_false_iff in H as [Hp Hs].
  destruct (IH Hs) as [I1 I2].
  rewrite search_group_paren_eq, search_group_eq, I1, I2, Hp.
  assert (P : prefix "* (HEAD detached at " (String x s) = false).
  { destruct (prefix "* (HEAD detached at " (String x s)) eqn:E;
      [|reflexivity].
    apply prefix_iff in E as [b E]. rewrite <- Hp, E.
    change ("* (HEAD detached at " ++ b) with ("* " ++ "(HEAD detached at " ++ b).
    symmetry. apply prefix_app. }
  rewrite P. split; reflexivity.
Qed.

Lemma head_descriptor_eq (branches tags : string) :
  head_descriptor branches tags =
  match search_commit_or_tag branches with
  | Some X => Ok ((if is_tag_of X tags then "(T)" else "(D)") ++ " " ++ X)
  | None =>
      match search_regular_branch branches with
      | Some name => Ok ("(B) " ++ name)
      | None => Ok "(B) master"
      end
  end.
Proof.
  unfold head_descriptor, _head_info, head_info_of, is_tag. cbn.
  destruct (search_commit_or_tag branches); reflexivity.
Qed.




(** ** C6: exceptions of the git commands *)

(** C6, as stated, fails: without a git binary the first command raises
    [FileNotFoundError], which no [except] clause names, and the
    constructor raises it in turn. *)
Lemma git_missing_binary_counterexample :
  GitInfoFragment
    {| git_status := Raise FileNotFoundError;
       git_branch := Raise FileNotFoundError;
       git_tag := Raise FileNotFoundError |}
  = Raise FileNotFoundError.
Proof. reflexivity. Qed.

(** C6, amended: when the git command that fails first (the status, the
    branch listing, or the tag listing of a detached head) raises
    [CalledProcessError] or [TimeoutExpired], the constructor returns a
    fragment with empty content; any other exception of that command is
    raised by the constructor. *)
Theorem git_process_errors_swallowed (git : Git) (e : Exception) :
  git_status git = Raise e
  \/ (exists s, git_status git = Ok s /\ git_branch git = Raise e)
  \/ (exists s b X, git_status git = Ok s /\ git_branch git = Ok b
                   /\ search_commit_or_tag b = Some X
                   /\ git_tag git = Raise e) ->
  (e = CalledProcessError \/ e = TimeoutExpired ->
   exists p, GitInfoFragment git = Ok p /\ content p = "")
  /\ (e <> CalledProcessError -> e <> TimeoutExpired ->
      GitInfoFragment git = Raise e).
Proof.
  intros H.
  assert (B : format_dict git = Raise e).
  { unfold format_dict, _git_mod_info, branch_info, _head_info, head_info_of, is_tag.
    destruct H as [H|[(s & Hs & Hb)|(s & b & X & Hs & Hb & HX & Ht)]].
    - rewrite H. reflexivity.
    - rewrite Hs, Hb. reflexivity.
    - rewrite Hs, Hb. cbn. rewrite HX, Ht. reflexivity. }
  unfold GitInfoFragment. rewrite B. split.
  - intros [->| ->]; exists PromptPart_init; split; reflexivity.
  - intros H1 H2. destruct e; congruence.
Qed.

Lemma git_process_errors_swallowed_witness :
  exists p,
    GitInfoFragment {| git_status := Ok sample_status;
                       git_branch := Raise TimeoutExpired;
                       git_tag := Ok "" |} = Ok p
    /\ content p = "".
Proof.
  apply (git_process_errors_swallowed
           {| git_status := Ok sample_status;
              git_branch := Raise TimeoutExpired;
              git_tag := Ok "" |} TimeoutExpired).
  - right. left. exists sample_status. split; reflexivity.
  - right. reflexivity.
Defined.

(** ** C7: the shortened directory *)

Section Replace.

Lemma replace_from_skip (old new p s : string) :
  PyStr.replace_from old new (String.length p) (p ++ s)
  = PyStr.replace_from old new 0 s.
Proof. induction p as [|x p IH]; [reflexivity | exact IH]. Qed.

Lemma replace_from_absent (old new s : string) :
  PyStr.contains old s = false -> PyStr.replace_from old new 0 s = s.
Proof.
  induction s as [|c s IH]; intros H; [reflexivity|].
  cbn [PyStr.contains] in H. apply orb_false_iff in H as [Hp Hs].
  cbn [PyStr.replace_from]. rewrite Hp, IH by assumption. reflexivity.
Qed.

Lemma replace_from_here (a : ascii) (k new rest : string) :
  PyStr.replace_from (String a k) new 0 (String a k ++ rest)
  = new ++ PyStr.replace_from (String a k) new 0 rest.
Proof.
  rewrite append_cons. cbn [PyStr.replace_from].
  rewrite <- append_cons, prefix_app.
  cbn [String.length]. rewrite Nat.sub_1_r. cbn [Nat.pred].
  now rewrite replace_from_skip.
Qed.

(** Where the old text is the prefix and occurs nowhere in the rest, the
    prefix alone is replaced. *)
Lemma replace_prefix_only (old new rest : string) :
  nonempty old = true -> PyStr.contains old rest = false ->
  PyStr.replace old new (old ++ rest) = new ++ rest.
Proof.
  intros Hne Habs. destruct old as [|a k]; [discriminate|].
  unfold PyStr.replace. rewrite replace_from_here.
  now rewrite replace_from_absent.
Qed.

Lemma length_drop (n : nat) (s : string) :
  (n <= String.length s)%nat ->
  String.length (PyStr.drop n s) = (String.length s - n)%nat.
Proof.
  revert s. induction n as [|n IH]; intros s H.
  - destruct s; cbn; lia.
  - destruct s as [|c s]; cbn in *; [lia|]. apply IH. lia.
Qed.

Lemma drop_suffix (n : nat) (s : string) :
  exists front, s = front ++ PyStr.drop n s.
Proof.
  revert s. induction n as [|n IH]; intros s.
  - exists "". destruct s; reflexivity.
  - destruct s as [|c s]; [exists ""; reflexivity|].
    destruct (IH s) as [front E]. exists (String c front).
    cbn [PyStr.drop]. rewrite append_cons, <- E. reflexivity.
Qed.

End Replace.




(** ** C8: the declared width of the last command *)

(** C8: for a non-empty last command, the declared width of the
    fragment is the length of the command plus 2, whatever the format,
    the colour and the escaping make of the content, in the server and
    in the one-shot command alike; for an empty last command it is 0.
    The command [echo it's] has 9 characters and a declared width of
    11, while its content has 19 characters. *)
Theorem last_command_declared_width
    (ch : ascii) (rest : string) (color : Colors) (format_str : string) :
  part_len (Server.LastCommandFragment (String ch rest) color format_str)
  = (PyStr.len (String ch rest) + 2)%Z
  /\ part_len (OneShot.LastCommandFragment (String ch rest) color format_str)
     = (PyStr.len (String ch rest) + 2)%Z
  /\ (forall escaped : string,
        part_len (LastCommandFragment_with escaped (String ch rest) color
                    format_str)
        = (PyStr.len (String ch rest) + 2)%Z)
  /\ part_len (Server.LastCommandFragment "" color format_str) = 0%Z
  /\ part_len (OneShot.LastCommandFragment "" color format_str) = 0%Z
  /\ part_len (Server.LastCommandFragment "echo it's" green "['{}']") = 11%Z
  /\ PyStr.len (content (Server.LastCommandFragment "echo it's" green "['{}']"))
     = 19%Z.
Proof. repeat split; reflexivity. Qed.

(** ** C5: the one-shot command and the server *)

Section Membership.

Lemma mem_append (ch : ascii) (a b : string) :
  PyStr.mem ch (a ++ b) = PyStr.mem ch a || PyStr.mem ch b.
Proof.
  induction a as [|x a IH]; [reflexivity|].
  cbn [append PyStr.mem]. now rewrite IH, orb_assoc.
Qed.

Lemma mem_replace_from (ch : ascii) (old new s : string) (skip : nat) :
  PyStr.mem ch new = false -> PyStr.mem ch s = false ->
  PyStr.mem ch (PyStr.replace_from old new skip s) = false.
Proof.
  intros Hnew. revert skip. induction s as [|x s IH]; intros skip Hs;
    [reflexivity|].
  cbn [PyStr.mem] in Hs. apply orb_false_iff in Hs as [Hx Hs].
  cbn [PyStr.replace_from]. destruct skip as [|k]; [|now apply IH].
  destruct (prefix old (String x s)).
  - rewrite mem_append, Hnew. now apply IH.
  - cbn [PyStr.mem]. rewrite Hx. now apply IH.
Qed.

Lemma contains_first_char (ch : ascii) (k s : string) :
  PyStr.mem ch s = false -> PyStr.contains (String ch k) s = false.
Proof.
  induction s as [|x s IH]; intros H; [reflexivity|].
  cbn [PyStr.mem] in H. apply orb_false_iff in H as [Hx Hs].
  cbn [PyStr.contains]. rewrite prefix_cons, Ascii.eqb_sym, Hx.
  now apply IH.
Qed.

Lemma mem_repeat_nat (ch : ascii) (s : string) (n : nat) :
  PyStr.mem ch s = false -> PyStr.mem ch (PyStr.repeat_nat s n) = false.
Proof.
  intros H. induction n as [|n IH]; [reflexivity|].
  cbn [PyStr.repeat_nat]. now rewrite mem_append, H, IH.
Qed.

Lemma replace_from_pass (ch : ascii) (k new a s : string) :
  PyStr.mem ch a = false ->
  PyStr.replace_from (String ch k) new 0 (a ++ s)
  = a ++ PyStr.replace_from (String ch k) new 0 s.
Proof.
  induction a as [|x a IH]; intros H; [reflexivity|].
  cbn [PyStr.mem] in H. apply orb_false_iff in H as [Hx Ha].
  rewrite !append_cons. cbn [PyStr.replace_from].
  rewrite prefix_cons, Ascii.eqb_sym, Hx. cbn [andb].
  now rewrite IH.
Qed.

(** The centring of the one-shot command: the plain centre, found once
    between rule characters, becomes the coloured centre. *)
Lemma replace_padded (ch : ascii) (k new a b : string) :
  PyStr.mem ch a = false -> PyStr.mem ch b = false ->
  PyStr.replace (String ch k) new (a ++ String ch k ++ b) = a ++ new ++ b.
Proof.
  intros Ha Hb. unfold PyStr.replace.
  rewrite replace_from_pass, replace_from_here by assumption.
  rewrite replace_from_absent by now apply contains_first_char.
  reflexivity.
Qed.

Lemma replace_self (ch : ascii) (k new : string) :
  PyStr.replace (String ch k) new (String ch k) = new.
Proof.
  pose proof (replace_padded ch k new "" "" eq_refl eq_refl) as H.
  rewrite append_nil_r in H. cbn [append] in H. rewrite append_nil_r in H.
  exact H.
Qed.

End Membership.

Section LastCommand.

Lemma quote_no_backslash (cmd : string) :
  PyStr.mem "\" cmd = false -> PyStr.mem "\" (Shlex.quote cmd) = false.
Proof.
  intros H. unfold Shlex.quote.
  destruct (negb (nonempty cmd)); [reflexivity|].
  destruct (Shlex.all_safe cmd); [assumption|].
  rewrite !mem_append. unfold PyStr.replace.
  rewrite mem_replace_from by (assumption || reflexivity). reflexivity.
Qed.

(** A command without a backslash has the same fragment in both
    programs. *)
Lemma last_command_same (cmd : string) (color : Colors) (format_str : string) :
  PyStr.mem "\" cmd = false ->
  OneShot.LastCommandFragment cmd color format_str
  = Server.LastCommandFragment cmd color format_str.
Proof.
  intros H. unfold OneShot.LastCommandFragment, Server.LastCommandFragment,
    LastCommandFragment_with.
  f_equal. destruct (nonempty cmd); [|reflexivity]. f_equal.
  unfold PyStr.replace, backslash.
  rewrite !replace_from_absent; try reflexivity;
    apply contains_first_char, quote_no_backslash; exact H.
Qed.

End LastCommand.

Section TopLine.

Lemma format1_parens (x : string) : format1 "({})" x = "(" ++ x ++ ")".
Proof. reflexivity. Qed.

Variables (ctx : Context) (gf : PromptPart).

Lemma top_store_same :
  PyStr.mem "\" (LAST_CMD ctx) = false ->
  OneShot.top_store ctx gf = Server.top_store ctx gf.
Proof.
  intros H. unfold OneShot.top_store, Server.top_store.
  now rewrite last_command_same.
Qed.

Lemma top_center_plain :
  uncolorized_str (Server.top_store ctx gf) center_container
  = "(" ++ _get_shortened_pwd (HOME ctx) (PWD ctx) 60 ++ ")".
Proof. reflexivity. Qed.

Lemma top_center_len :
  container_len (Server.top_store ctx gf) center_container
  = PyStr.len ("(" ++ _get_shortened_pwd (HOME ctx) (PWD ctx) 60 ++ ")").
Proof.
  unfold container_len. cbn [parts center_container map fold_right].
  rewrite Z.add_0_r. reflexivity.
Qed.

End TopLine.

Lemma result_neq (a b : string) : String.eqb a b = false -> Ok a <> Ok b.
Proof. intros H E. injection E as E. apply String.eqb_neq in H. auto. Qed.

(** C5, as stated, fails, in five ways.  For the sample context the
    three parts agree and the two texts differ all the same: the shell
    text around the parts is not the same.  After a command with a
    backslash the top lines differ, the one-shot command writing four
    backslashes where the server writes two.  With an odd fill the top
    lines differ, the character in excess standing on the other side.
    In a narrow terminal the one-shot command raises where the server
    answers.  With a Python environment active the prompts differ. *)
Lemma outputs_differ_counterexample :
  (OneShot.topline sample_context = Server.topline sample_context
   /\ OneShot.prompt_str sample_context = Server.prompt_str sample_context
   /\ OneShot.rprompt sample_context = Server.rprompt sample_context
   /\ OneShot.main sample_context <> Server.handle_client sample_context)
  /\ OneShot.topline backslash_context <> Server.topline backslash_context
  /\ OneShot.topline odd_fill_context <> Server.topline odd_fill_context
  /\ (OneShot.main narrow_context = Raise ValueError
      /\ exists text, Server.handle_client narrow_context = Ok text)
  /\ OneShot.prompt_str venv_context <> Server.prompt_str venv_context.
Proof.
  assert (R : forall x y : Result string,
            (exists a b, x = Ok a /\ y = Ok b /\ String.eqb a b = false) ->
            x <> y).
  { intros x y (a & b & -> & -> & H). now apply result_neq. }
  split; [|split; [|split; [|split]]].
  - split; [vm_compute; reflexivity|]. split; [reflexivity|].
    split; [reflexivity|].
    apply R. eexists _, _. split; [vm_compute; reflexivity|].
    split; [vm_compute; reflexivity|]. vm_compute. reflexivity.
  - apply R. eexists _, _. split; [vm_compute; reflexivity|].
    split; [vm_compute; reflexivity|]. vm_compute. reflexivity.
  - apply R. eexists _, _. split; [vm_compute; reflexivity|].
    split; [vm_compute; reflexivity|]. vm_compute. reflexivity.
  - split; [vm_compute; reflexivity|]. eexists. vm_compute. reflexivity.
  - apply String.eqb_neq. vm_compute. reflexivity.
Qed.

(** C5, amended: for every context the one-shot command and the server
    render the same text for the right prompt; when none of the three
    environment variables is set they render the same prompt; and when
    the last command has no backslash, the middle budget is not negative
    and the fill is even or not positive, they render the same top line
    (or raise the same exception of a git command).  Nothing is said of
    the shell text around the three parts. *)
Theorem render_parts_agree (ctx : Context) :
  OneShot.rprompt ctx = Server.rprompt ctx
  /\ (VIRTUAL_ENV ctx = None -> CONDA_DEFAULT_ENV ctx = None ->
      NODE_VIRTUAL_ENV ctx = None ->
      OneShot.prompt_str ctx = Server.prompt_str ctx)
  /\ (PyStr.mem "\" (LAST_CMD ctx) = false ->
      (forall gf : PromptPart,
         GitInfoFragment (git ctx) = Ok gf ->
         (0 <= middle_budget (COLS ctx) left_container right_container
                 (Server.top_store ctx gf))%Z
         /\ let fill := fill_of (COLS ctx) left_container center_container
                          right_container (Server.top_store ctx gf) in
            (fill <= 0)%Z \/ (fill mod 2 = 0)%Z) ->
      OneShot.topline ctx = Server.topline ctx).
Proof.
  split; [reflexivity|]. split.
  { intros H1 H2 H3. unfold OneShot.prompt_str, Server.prompt_str.
    rewrite H1, H2, H3. reflexivity. }
  intros Hcmd Hfill.
  unfold OneShot.topline, Server.topline.
  destruct (GitInfoFragment (git ctx)) as [gf|e]; [|reflexivity].
  cbn [rbind]. rewrite top_store_same by assumption.
  destruct (Hfill gf eq_refl) as [Hbudget Hparity]. clear Hfill.
  rewrite oneshot_embed_run, server_embed_run. cbv zeta.
  unfold fill_of, middle_budget in *.
  rewrite top_center_len in *. rewrite top_center_plain.
  set (st := Server.top_store ctx gf) in *.
  set (st' := top_line_store st left_container center_container
                right_container).
  set (budget := (COLS ctx - container_len st left_container
                  - container_len st right_container)%Z) in *.
  set (path := _get_shortened_pwd (HOME ctx) (PWD ctx) 60) in *.
  change ("(" ++ path ++ ")") with (String "(" (path ++ ")")) in *.
  set (k := path ++ ")") in *.
  unfold OneShot.format_center, RULE_CHAR.
  destruct (Z.ltb_spec budget 0); [lia|].
  set (fill := (budget - PyStr.len (String "(" k))%Z) in *.
  destruct (Z.ltb_spec 0 fill) as [Hpos|Hneg]; cbn [fst].
  - destruct Hparity as [?|Heven]; [lia|].
    pose proof (Z.div_mod fill 2 ltac:(lia)) as D.
    replace (fill - fill / 2)%Z with (fill / 2)%Z by lia.
    rewrite Heven, Z.add_0_r.
    rewrite replace_padded by (apply mem_repeat_nat; reflexivity).
    reflexivity.
  - rewrite replace_self. reflexivity.
Qed.

(** The sample context meets every hypothesis; the context with a
    Python environment and a failed command meets those of the top
    line. *)
Lemma render_parts_agree_witness :
  OneShot.rprompt venv_context = Server.rprompt venv_context
  /\ OneShot.prompt_str sample_context = Server.prompt_str sample_context
  /\ OneShot.topline sample_context = Server.topline sample_context
  /\ OneShot.topline venv_context = Server.topline venv_context.
Proof.
  destruct (render_parts_agree sample_context) as (_ & P & T).
  destruct (render_parts_agree venv_context) as (R & _ & T').
  split; [exact R|]. split; [exact (P eq_refl eq_refl eq_refl)|]. split.
  - apply T; [reflexivity|].
    intros gf H. vm_compute in H. injection H as <-.
    split; [vm_compute; discriminate|]. right. reflexivity.
  - apply T'; [reflexivity|].
    intros gf H. vm_compute in H. injection H as <-.
    split; [vm_compute; discriminate|]. right. reflexivity.
Defined.

(** The one-shot command on a long last command in a narrow terminal:
    the server answers, the one-shot command raises. *)
Lemma narrow_terminal_outcomes :
  OneShot.main narrow_context = Raise ValueError
  /\ exists text, Server.handle_client narrow_context = Ok text.
Proof.
  split; [vm_compute; reflexivity|].
  eexists. vm_compute. reflexivity.
Qed.

(** * Further properties *)

(** ** The environment of a client *)

Section Environment.

Lemma split_not_nil (sep : ascii) (a : string) : PyStr.split sep a <> [].
Proof.
  destruct a as [|x a]; cbn [PyStr.split]; [discriminate|].
  destruct (Ascii.eqb x sep); [discriminate|].
  destruct (PyStr.split sep a); discriminate.
Qed.

Lemma split_app_sep (sep : ascii) (a b : string) :
  PyStr.split sep (a ++ String sep b)
  = (PyStr.split sep a ++ PyStr.split sep b)%list.
Proof.
  induction a as [|x a IH].
  - cbn. now rewrite Ascii.eqb_refl.
  - rewrite append_cons. cbn [PyStr.split].
    destruct (Ascii.eqb x sep); rewrite IH; [reflexivity|].
    destruct (PyStr.split sep a) as [|h t] eqn:E; [|reflexivity].
    now apply split_not_nil in E.
Qed.

Lemma split_no_sep (sep : ascii) (a : string) :
  PyStr.mem sep a = false -> PyStr.split sep a = [a].
Proof.
  induction a as [|x a IH]; intros H; [reflexivity|].
  cbn [PyStr.mem] in H. apply orb_false_iff in H as [Hx Ha].
  cbn [PyStr.split]. now rewrite Hx, IH.
Qed.

Lemma split_once_at (var value : string) :
  PyStr.mem "=" var = false ->
  split_once "=" (var ++ "=" ++ value) = Some (var, value).
Proof.
  induction var as [|x var IH]; intros H; [reflexivity|].
  cbn [PyStr.mem] in H. apply orb_false_iff in H as [Hx Hv].
  rewrite append_cons. cbn [split_once]. now rewrite Hx, IH.
Qed.

Lemma split_once_absent (s : string) :
  PyStr.mem "=" s = false -> split_once "=" s = None.
Proof.
  induction s as [|x s IH]; intros H; [reflexivity|].
  cbn [PyStr.mem] in H. apply orb_false_iff in H as [Hx Hs].
  cbn [split_once]. now rewrite Hx, IH.
Qed.

Lemma parse_app (a b : string) :
  parse_environment (a ++ String NUL b)
  = fold_left store_pair (PyStr.split NUL b) (parse_environment a).
Proof.
  unfold parse_environment. now rewrite split_app_sep, fold_left_app.
Qed.

Lemma pair_nonempty (var value : string) :
  nonempty (var ++ "=" ++ value) = true.
Proof. destruct var; reflexivity. Qed.

Lemma store_pair_well_formed (env : dict) (var value : string) :
  PyStr.mem "=" var = false ->
  store_pair env (var ++ "=" ++ value) = dict_update env var value.
Proof.
  intros H. unfold store_pair.
  now rewrite pair_nonempty, split_once_at.
Qed.

Lemma store_pair_malformed (env : dict) (junk : string) :
  PyStr.mem "=" junk = false -> store_pair env junk = env.
Proof.
  intros H. unfold store_pair. rewrite split_once_absent by assumption.
  destruct (negb (nonempty junk)); reflexivity.
Qed.

Lemma fold_serialized (vars : list (string * string)) (env : dict) (k : string) :
  Forall (fun kv => PyStr.mem "=" (fst kv) = false
                    /\ PyStr.mem NUL (fst kv) = false
                    /\ PyStr.mem NUL (snd kv) = false) vars ->
  fold_left store_pair (PyStr.split NUL (serialize_environment vars)) env k
  = match last_binding vars k with
    | Some v => Some v
    | None => env k
    end.
Proof.
  intros H. revert env. induction H as [|[var value] rest (He & Hn & Hv) _ IH];
    intros env; [reflexivity|].
  cbn [fst snd] in *. cbn [serialize_environment last_binding].
  replace (var ++ "=" ++ value ++ String NUL (serialize_environment rest))
    with ((var ++ "=" ++ value) ++ String NUL (serialize_environment rest))
    by now rewrite !append_assoc.
  rewrite split_app_sep, fold_left_app,
    (split_no_sep NUL (var ++ "=" ++ value)).
  - cbn [fold_left]. rewrite store_pair_well_formed by assumption.
    rewrite IH. destruct (last_binding rest k); [reflexivity|].
    unfold dict_update. destruct (String.eqb k var); reflexivity.
  - rewrite !mem_append, Hn, Hv. reflexivity.
Qed.

End Environment.

(** X1: the round trip of a client's environment.  When no name holds
    an equals sign or a NUL and no value holds a NUL, the dictionary
    that [handle_client] builds from the pairs, each followed by a NUL,
    gives every name the value of its last pair, and nothing to a name
    without a pair; a value may hold equals signs. *)
Theorem environment_round_trip (vars : list (string * string)) (k : string) :
  Forall (fun kv => PyStr.mem "=" (fst kv) = false
                    /\ PyStr.mem NUL (fst kv) = false
                    /\ PyStr.mem NUL (snd kv) = false) vars ->
  parse_environment (serialize_environment vars) k = last_binding vars k.
Proof.
  intros H. unfold parse_environment. rewrite fold_serialized by assumption.
  destruct (last_binding vars k); reflexivity.
Qed.

Lemma environment_round_trip_witness :
  parse_environment
    (serialize_environment [("PWD", "/tmp"); ("OPTS", "a=b"); ("PWD", "/srv")])
    "PWD" = Some "/srv"
  /\ parse_environment
       (serialize_environment [("PWD", "/tmp"); ("OPTS", "a=b"); ("PWD", "/srv")])
       "OPTS" = Some "a=b"
  /\ parse_environment
       (serialize_environment [("PWD", "/tmp"); ("OPTS", "a=b"); ("PWD", "/srv")])
       "COLS" = None.
Proof.
  assert (H : Forall (fun kv => PyStr.mem "=" (fst kv) = false
                                /\ PyStr.mem NUL (fst kv) = false
                                /\ PyStr.mem NUL (snd kv) = false)
                [("PWD", "/tmp"); ("OPTS", "a=b"); ("PWD", "/srv")])
    by (repeat constructor).
  split; [|split]; rewrite (environment_round_trip _ _ H); reflexivity.
Defined.

(** X2: a piece of the client's text without an equals sign leaves no
    trace: the dictionary is the one built from the text without the
    piece. *)
Theorem malformed_pair_is_dropped (a junk b k : string) :
  PyStr.mem "=" junk = false -> PyStr.mem NUL junk = false ->
  parse_environment (a ++ String NUL (junk ++ String NUL b)) k
  = parse_environment (a ++ String NUL b) k.
Proof.
  intros He Hn. rewrite !parse_app, split_app_sep, fold_left_app.
  rewrite (split_no_sep NUL junk) by assumption. cbn [fold_left].
  now rewrite store_pair_malformed.
Qed.

Lemma malformed_pair_is_dropped_witness :
  parse_environment ("PWD=/tmp" ++ String NUL ("junk" ++ String NUL "COLS=80"))
    "COLS"
  = parse_environment ("PWD=/tmp" ++ String NUL "COLS=80") "COLS".
Proof.
  apply (malformed_pair_is_dropped "PWD=/tmp" "junk" "COLS=80" "COLS");
    reflexivity.
Defined.


(** ** Containers *)

Section ContainerFacts.

Variable st : store.

Lemma len_join (sep : string) (l : list string) :
  PyStr.len (PyStr.join sep l)
  = (fold_right Z.add 0 (map PyStr.len l)
     + PyStr.len sep * Z.of_nat (pred (List.length l)))%Z.
Proof.
  unfold PyStr.join. induction l as [|x l IH]; [cbn; lia|].
  destruct l as [|y l].
  - cbn. unfold PyStr.len. lia.
  - change (concat sep (x :: y :: l)) with (x ++ sep ++ concat sep (y :: l)).
    rewrite !len_append, IH. cbn [map fold_right List.length pred]. lia.
Qed.

Lemma base_len_filtered (rs : list ref) :
  (forall x, In x rs -> last_cmd (st x) = None) ->
  fold_right Z.add 0%Z (map (fun x => part_len (st x)) rs)
  = fold_right Z.add 0%Z
      (map PyStr.len
         (map (fun x => content (st x))
            (filter (fun x => nonempty (content (st x))) rs))).
Proof.
  induction rs as [|x rs IH]; intros H; [reflexivity|].
  cbn [map fold_right filter]. rewrite IH by (intros; apply H; now right).
  unfold part_len at 1. rewrite (H x) by now left.
  destruct (nonempty (content (st x))) eqn:E; cbn [map fold_right];
    [reflexivity|].
  destruct (content (st x)); [reflexivity | discriminate].
Qed.

End ContainerFacts.

(** X3: a fragment with empty content leaves no trace in a container:
    with it or without it, at any place of the list, [__str__] and
    [uncolorized_str] give the same text, no separator being written
    for it; unless the fragment is a last-command fragment, the width is
    the same too. *)
Theorem empty_fragment_vanishes
    (st : store) (sep : string) (before after : list ref) (x : ref) :
  content (st x) = "" ->
  container_str st (mkContainer sep (before ++ x :: after))
  = container_str st (mkContainer sep (before ++ after))
  /\ uncolorized_str st (mkContainer sep (before ++ x :: after))
     = uncolorized_str st (mkContainer sep (before ++ after))
  /\ (last_cmd (st x) = None ->
      container_len st (mkContainer sep (before ++ x :: after))
      = container_len st (mkContainer sep (before ++ after))).
Proof.
  intros H. unfold container_str, uncolorized_str, container_len.
  cbn [parts separator].
  rewrite !filter_app. cbn [filter]. rewrite H. cbn [nonempty].
  split; [reflexivity|]. split; [reflexivity|].
  intros Hl.
  assert (Z0 : part_len (st x) = 0%Z) by (unfold part_len; now rewrite Hl, H).
  induction before as [|y before IH]; cbn [app map fold_right].
  - now rewrite Z0.
  - now rewrite IH.
Qed.

Lemma empty_fragment_vanishes_witness :
  container_str (store_of [ColoredTextFragment "a" red; PromptPart_init;
                           ColoredTextFragment "b" default])
    (mkContainer "~" ([0%nat] ++ 1%nat :: [2%nat]))
  = container_str (store_of [ColoredTextFragment "a" red; PromptPart_init;
                             ColoredTextFragment "b" default])
      (mkContainer "~" ([0%nat] ++ [2%nat])).
Proof.
  apply (empty_fragment_vanishes
           (store_of [ColoredTextFragment "a" red; PromptPart_init;
                      ColoredTextFragment "b" default])
           "~" [0%nat] [2%nat] 1%nat).
  reflexivity.
Defined.

(** X4: what the width of a container leaves out.  For fragments other
    than last-command fragments, the plain text of a container is longer
    than its width by one separator for each fragment with content
    after the first: the width counts no separator. *)
Theorem container_width_counts_no_separator
    (st : store) (c : PromptPartContainer) :
  (forall x, In x (parts c) -> last_cmd (st x) = None) ->
  PyStr.len (uncolorized_str st c)
  = (container_len st c
     + PyStr.len (separator c)
       * Z.of_nat
           (pred (List.length
                    (filter (fun x => nonempty (content (st x))) (parts c)))))%Z.
Proof.
  intros H. unfold uncolorized_str, container_len.
  rewrite len_join, length_map, (base_len_filtered st (parts c) H).
  reflexivity.
Qed.

Lemma container_width_counts_no_separator_witness :
  PyStr.len (uncolorized_str two_part_store two_part_center)
  = (container_len two_part_store two_part_center
     + PyStr.len (separator two_part_center)
       * Z.of_nat
           (pred (List.length
                    (filter (fun x => nonempty (content (two_part_store x)))
                       (parts two_part_center)))))%Z.
Proof.
  apply (container_width_counts_no_separator two_part_store two_part_center).
  intros x [<-|[<-|[]]]; reflexivity.
Defined.

(** ** The two compositors *)

Section Compositors.

Lemma container_str_ext (st1 st2 : store) (k : PromptPartContainer) :
  (forall x, In x (parts k) ->
     content (st1 x) = content (st2 x) /\ color (st1 x) = color (st2 x)
     /\ zero_width (st1 x) = zero_width (st2 x)) ->
  container_str st1 k = container_str st2 k.
Proof.
  intros H. unfold container_str. f_equal.
  induction (parts k) as [|x xs IH]; [reflexivity|].
  cbn [filter]. destruct (H x (or_introl eq_refl)) as (Hc & Hk & Hz).
  assert (IH' := IH (fun y Hy => H y (or_intror Hy))).
  rewrite Hc. destruct (nonempty (content (st2 x))); [|exact IH'].
  cbn [map]. rewrite IH'. f_equal. unfold part_str. now rewrite Hc, Hk, Hz.
Qed.

Lemma top_line_str_ext (st1 st2 : store) (l c r k : PromptPartContainer) :
  (forall x, content (st1 x) = content (st2 x)
             /\ color (st1 x) = color (st2 x)) ->
  (forall x, In x (parts k) -> In x (parts l ++ parts c ++ parts r)) ->
  container_str (top_line_store st1 l c r) k
  = container_str (top_line_store st2 l c r) k.
Proof.
  intros H Hin. apply container_str_ext. intros x Hx.
  destruct (top_line_fields st1 l c r x) as (-> & -> & _).
  destruct (top_line_fields st2 l c r x) as (-> & -> & _).
  rewrite !top_line_zero_width_in by auto.
  destruct (H x). auto.
Qed.

Lemma mul_add (s : string) (a b : Z) :
  (0 <= a)%Z -> (0 <= b)%Z ->
  PyStr.mul s a ++ PyStr.mul s b = PyStr.mul s (a + b).
Proof.
  intros Ha Hb. unfold PyStr.mul. rewrite Z2Nat.inj_add by assumption.
  induction (Z.to_nat a) as [|n IH]; [reflexivity|].
  cbn [Nat.add PyStr.repeat_nat]. now rewrite append_assoc, IH.
Qed.

Lemma intersperse_nil (s : string) : PyStr.intersperse "" s = s.
Proof. induction s as [|x s IH]; [reflexivity|]. cbn. now rewrite IH. Qed.

Lemma container_str_all_empty (st : store) (k : PromptPartContainer) :
  (forall x, In x (parts k) -> content (st x) = "") ->
  container_str st k = "" /\ uncolorized_str st k = "".
Proof.
  intros H. unfold container_str, uncolorized_str.
  assert (E : filter (fun x => nonempty (content (st x))) (parts k) = []).
  { induction (parts k) as [|x xs IH]; [reflexivity|].
    cbn [filter]. rewrite (H x) by now left. cbn [nonempty].
    apply IH. intros; apply H; now right. }
  rewrite E. split; reflexivity.
Qed.

Lemma container_len_all_zero (st : store) (k : PromptPartContainer) :
  (forall x, In x (parts k) -> part_len (st x) = 0%Z) ->
  container_len st k = 0%Z.
Proof.
  intros H. unfold container_len.
  induction (parts k) as [|x xs IH]; [reflexivity|].
  cbn [map fold_right]. rewrite IH by (intros; apply H; now right).
  now rewrite (H x (or_introl eq_refl)).
Qed.

End Compositors.

(** X5: the line of either compositor reads the content, the colour and
    the declared width of the fragments and nothing else: two stores
    that differ in the [zero_width] flags only give the same line. *)
Theorem embed_ignores_zero_width
    (w : Z) (l c r : PromptPartContainer) (rule_char : string)
    (st1 st2 : store) :
  (forall x, content (st1 x) = content (st2 x)
             /\ color (st1 x) = color (st2 x)
             /\ last_cmd (st1 x) = last_cmd (st2 x)) ->
  fst (Server.embed_in_horizontal_rule w l c r rule_char st1)
  = fst (Server.embed_in_horizontal_rule w l c r rule_char st2)
  /\ fst (OneShot.embed_in_horizontal_rule w l c r rule_char st1)
     = fst (OneShot.embed_in_horizontal_rule w l c r rule_char st2).
Proof.
  intros H.
  assert (T : same_text st1 st2) by (intros x; destruct (H x) as (?&?&?); auto).
  assert (K : forall x, content (st1 x) = content (st2 x)
                        /\ color (st1 x) = color (st2 x))
    by (intros x; destruct (H x) as (?&?&?); auto).
  assert (Sl : container_str (top_line_store st1 l c r) l
               = container_str (top_line_store st2 l c r) l)
    by (apply top_line_str_ext; [exact K | intros; rewrite !in_app_iff; auto]).
  assert (Sc : container_str (top_line_store st1 l c r) c
               = container_str (top_line_store st2 l c r) c)
    by (apply top_line_str_ext; [exact K | intros; rewrite !in_app_iff; auto]).
  assert (Sr : container_str (top_line_store st1 l c r) r
               = container_str (top_line_store st2 l c r) r)
    by (apply top_line_str_ext; [exact K | intros; rewrite !in_app_iff; auto]).
  split.
  - rewrite !server_embed_run. cbv zeta. cbn [fst]. unfold fill_of.
    rewrite !(container_len_same st1 st2 _ T), Sl, Sc, Sr. reflexivity.
  - rewrite !oneshot_embed_run. cbv zeta.
    rewrite !(container_len_same st1 st2 _ T),
      (uncolorized_str_same st1 st2 _ T), Sl, Sc, Sr.
    destruct (OneShot.format_center _ _ _); reflexivity.
Qed.

Lemma embed_ignores_zero_width_witness :
  fst (Server.embed_in_horizontal_rule 20 spec_left spec_center spec_right
         RULE_CHAR spec_store)
  = fst (Server.embed_in_horizontal_rule 20 spec_left spec_center spec_right
           RULE_CHAR (top_line_store spec_store spec_left spec_center
                        spec_right)).
Proof.
  apply (embed_ignores_zero_width 20 spec_left spec_center spec_right RULE_CHAR
           spec_store
           (top_line_store spec_store spec_left spec_center spec_right)).
  intros x.
  destruct (top_line_fields spec_store spec_left spec_center spec_right x)
    as (-> & -> & ->).
  repeat split.
Defined.

(** X6: composing twice.  The store that a composition leaves gives the
    same line when the same containers are composed again, in either
    program. *)
Theorem embed_twice_same_line
    (w : Z) (l c r : PromptPartContainer) (rule_char : string) (st : store) :
  fst (Server.embed_in_horizontal_rule w l c r rule_char
         (snd (Server.embed_in_horizontal_rule w l c r rule_char st)))
  = fst (Server.embed_in_horizontal_rule w l c r rule_char st)
  /\ fst (OneShot.embed_in_horizontal_rule w l c r rule_char
            (snd (OneShot.embed_in_horizontal_rule w l c r rule_char st)))
     = fst (OneShot.embed_in_horizontal_rule w l c r rule_char st).
Proof.
  assert (E1 : snd (Server.embed_in_horizontal_rule w l c r rule_char st)
               = top_line_store st l c r)
    by (now rewrite server_embed_run).
  assert (E2 : snd (OneShot.embed_in_horizontal_rule w l c r rule_char st)
               = top_line_store st l c r).
  { rewrite oneshot_embed_run. cbv zeta.
    destruct (OneShot.format_center _ _ _); reflexivity. }
  rewrite E1, E2.
  set (st' := top_line_store st l c r).
  assert (T : same_text st' st) by apply same_text_top_line.
  assert (K : forall x, content (st' x) = content (st x)
                        /\ color (st' x) = color (st x))
    by (intros x; destruct (top_line_fields st l c r x) as (?&?&?); auto).
  assert (S : forall k, (forall x, In x (parts k) ->
                                   In x (parts l ++ parts c ++ parts r)) ->
                        container_str (top_line_store st' l c r) k
                        = container_str st' k)
    by (intros k Hk; now apply top_line_str_ext).
  assert (Sl := S l ltac:(intros; rewrite !in_app_iff; auto)).
  assert (Sc := S c ltac:(intros; rewrite !in_app_iff; auto)).
  assert (Sr := S r ltac:(intros; rewrite !in_app_iff; auto)).
  split.
  - rewrite !server_embed_run. cbv zeta. cbn [fst]. unfold fill_of.
    fold st'. rewrite !(container_len_same st' st _ T), Sl, Sc, Sr.
    reflexivity.
  - rewrite !oneshot_embed_run. cbv zeta. fold st'.
    rewrite !(container_len_same st' st _ T),
      (uncolorized_str_same st' st _ T), Sl, Sc, Sr.
    destruct (OneShot.format_center _ _ _); reflexivity.
Qed.

(** X7: with nothing to show in the centre, the rule is whole.  When
    every fragment of the centre has empty content and declares the
    width 0, and the middle budget is not negative, both compositors
    return the left container, then as many rule characters as the
    middle budget, then the right container. *)
Theorem empty_center_whole_rule
    (w : Z) (l c r : PromptPartContainer) (ch : ascii) (st : store) :
  (forall x, In x (parts c) -> content (st x) = "" /\ part_len (st x) = 0%Z) ->
  (0 <= middle_budget w l r st)%Z ->
  let st' := top_line_store st l c r in
  let line := container_str st' l
              ++ PyStr.mul (String ch "") (middle_budget w l r st)
              ++ container_str st' r in
  fst (Server.embed_in_horizontal_rule w l c r (String ch "") st) = Ok line
  /\ fst (OneShot.embed_in_horizontal_rule w l c r (String ch "") st) = Ok line.
Proof.
  intros Hc Hb st' line.
  assert (L0 : container_len st c = 0%Z)
    by (apply container_len_all_zero; intros x Hx; now destruct (Hc x Hx)).
  assert (P0 : uncolorized_str st c = "")
    by (apply container_str_all_empty; intros x Hx; now destruct (Hc x Hx)).
  assert (S0 : container_str st' c = "").
  { apply container_str_all_empty. intros x Hx. unfold st'.
    destruct (top_line_fields st l c r x) as (-> & _ & _).
    now destruct (Hc x Hx). }
  unfold middle_budget in *.
  set (budget := (w - container_len st l - container_len st r)%Z) in *.
  split.
  - rewrite server_embed_run. cbv zeta. cbn [fst]. fold st'.
    unfold fill_of. fold budget. rewrite L0, S0, Z.sub_0_r.
    destruct (Z.ltb_spec 0 budget) as [Hpos|Hneg].
    + cbn [append].
      pose proof (Z.div_mod budget 2 ltac:(lia)) as D.
      pose proof (Z.mod_pos_bound budget 2 ltac:(lia)) as B.
      assert (0 <= budget / 2)%Z by (apply Z.div_pos; lia).
      rewrite mul_add by lia.
      replace (budget / 2 + budget mod 2 + budget / 2)%Z with budget by lia.
      reflexivity.
    + assert (B0 : budget = 0%Z) by lia. unfold line. rewrite B0.
      reflexivity.
  - rewrite oneshot_embed_run. cbv zeta. fold st' budget.
    rewrite P0, S0. unfold OneShot.format_center.
    destruct (Z.ltb_spec budget 0); [lia|].
    change (PyStr.len "") with 0%Z. rewrite Z.sub_0_r.
    destruct (Z.ltb_spec 0 budget) as [Hpos|Hneg]; cbn [fst].
    + unfold PyStr.replace. rewrite intersperse_nil. cbn [append].
      assert (0 <= budget / 2)%Z by (apply Z.div_pos; lia).
      pose proof (Z.div_mod budget 2 ltac:(lia)) as D.
      pose proof (Z.mod_pos_bound budget 2 ltac:(lia)) as B.
      rewrite mul_add by lia.
      replace (budget / 2 + (budget - budget / 2))%Z with budget by lia.
      reflexivity.
    + assert (B0 : budget = 0%Z) by lia. unfold line. rewrite B0.
      reflexivity.
Qed.

(** A centre of two fragments without content: one as
    [PromptPart.__init__] leaves it, and the last-command fragment of an
    empty command. *)
Lemma empty_center_whole_rule_witness :
  fst (Server.embed_in_horizontal_rule 15 spec_left
         (mkContainer "~" [3%nat; 4%nat]) spec_right "~"
         (store_of [ColoredTextFragment "left" blue;
                    ColoredTextFragment "mi" teal;
                    ColoredTextFragment "rght" gray;
                    PromptPart_init;
                    Server.LastCommandFragment "" green "['{}']"]))
  = Ok ("\e[38;5;4mleft\e[0;m" ++ "~~~~~~~" ++ "\e[38;5;21mrght\e[0;m")
  /\ fst (OneShot.embed_in_horizontal_rule 15 spec_left
            (mkContainer "~" [3%nat; 4%nat]) spec_right "~"
            (store_of [ColoredTextFragment "left" blue;
                       ColoredTextFragment "mi" teal;
                       ColoredTextFragment "rght" gray;
                       PromptPart_init;
                       Server.LastCommandFragment "" green "['{}']"]))
     = Ok ("\e[38;5;4mleft\e[0;m" ++ "~~~~~~~" ++ "\e[38;5;21mrght\e[0;m").
Proof.
  apply (empty_center_whole_rule 15 spec_left (mkContainer "~" [3%nat; 4%nat])
           spec_right "~"
           (store_of [ColoredTextFragment "left" blue;
                      ColoredTextFragment "mi" teal;
                      ColoredTextFragment "rght" gray;
                      PromptPart_init;
                      Server.LastCommandFragment "" green "['{}']"])).
  - intros x [<-|[<-|[]]]; split; reflexivity.
  - discriminate.
Defined.

(** X8: the centring of the one-shot command.  With a middle budget
    that is not negative and a centre whose plain text does not start
    with the rule character, the one-shot compositor measures the fill
    on the plain text of the centre (its separators counted) and puts
    [fill // 2] rule characters before the rendered centre and the rest,
    the odd one with it, behind; without a fill the centre stands
    unpadded. *)
Theorem oneshot_centering
    (w : Z) (l c r : PromptPartContainer) (rule ch : ascii) (k : string)
    (st : store) :
  uncolorized_str st c = String ch k ->
  Ascii.eqb rule ch = false ->
  (0 <= middle_budget w l r st)%Z ->
  let st' := top_line_store st l c r in
  let fill := (middle_budget w l r st - PyStr.len (String ch k))%Z in
  fst (OneShot.embed_in_horizontal_rule w l c r (String rule "") st)
  = Ok (container_str st' l
        ++ (if (0 <? fill)%Z
            then PyStr.mul (String rule "") (fill / 2)
                 ++ container_str st' c
                 ++ PyStr.mul (String rule "") (fill - fill / 2)
            else container_str st' c)
        ++ container_str st' r).
Proof.
  intros Hplain Hrule Hb st' fill.
  rewrite oneshot_embed_run. cbv zeta. fold st'.
  unfold middle_budget in *. rewrite Hplain. unfold OneShot.format_center.
  destruct (Z.ltb_spec (w - container_len st l - container_len st r) 0);
    [lia|].
  fold fill. destruct (Z.ltb_spec 0 fill); cbn [fst].
  - rewrite replace_padded
      by (apply mem_repeat_nat; cbn [PyStr.mem]; now rewrite Hrule).
    reflexivity.
  - now rewrite replace_self.
Qed.

Lemma oneshot_centering_witness :
  fst (OneShot.embed_in_horizontal_rule 10 empty_container two_part_center
         empty_container "~" two_part_store)
  = Ok ("" ++ ("~~~" ++ "a~b" ++ "~~~~") ++ "").
Proof.
  exact (oneshot_centering 10 empty_container two_part_center empty_container
           "~" "a" "~b" two_part_store eq_refl eq_refl
           ltac:(discriminate)).
Defined.

(** ** When a render fails *)


(** X10: the one-shot command fails in one more way.  Once the git
    fragment is built, [main] raises [ValueError] when the middle budget
    of the top line is negative (the widths of the git fragment, of the
    last command and of the time exceed the terminal width) and prints a
    text when it is not. *)
Theorem oneshot_fails_on_negative_budget (ctx : Context) (gf : PromptPart) :
  GitInfoFragment (git ctx) = Ok gf ->
  let budget := middle_budget (COLS ctx) left_container right_container
                  (OneShot.top_store ctx gf) in
  ((budget < 0)%Z -> OneShot.main ctx = Raise ValueError)
  /\ ((0 <= budget)%Z -> exists text, OneShot.main ctx = Ok text).
Proof.
  intros G budget. unfold OneShot.main, OneShot.topline. rewrite G.
  cbn [rbind]. split.
  - intros Hneg. rewrite oneshot_negative_budget_raises by exact Hneg.
    reflexivity.
  - intros Hpos. rewrite oneshot_embed_run. cbv zeta.
    unfold OneShot.format_center, RULE_CHAR.
    unfold budget, middle_budget in Hpos.
    destruct (Z.ltb_spec
                (COLS ctx
                 - container_len (OneShot.top_store ctx gf) left_container
                 - container_len (OneShot.top_store ctx gf) right_container) 0);
      [lia|].
    destruct (0 <? _)%Z; cbn [fst rbind]; eauto.
Qed.

Lemma oneshot_fails_on_negative_budget_witness :
  OneShot.main narrow_context = Raise ValueError
  /\ exists text, OneShot.main sample_context = Ok text.
Proof.
  split.
  - refine (proj1 (oneshot_fails_on_negative_budget narrow_context _ eq_refl) _).
    vm_compute. reflexivity.
  - refine (proj2 (oneshot_fails_on_negative_budget sample_context _ eq_refl) _).
    vm_compute. discriminate.
Defined.

(** ** The git fragment *)

(** X11: the tag listing is read for a detached head only.  When the
    branch listing has no detached line, or a command before it fails,
    the outcome of [git tag] (its text or its exception) changes nothing
    in the fragment. *)
Theorem tag_listing_read_only_when_detached
    (status branch tags1 tags2 : Result string) :
  (forall s b, status = Ok s -> branch = Ok b ->
               search_commit_or_tag b = None) ->
  GitInfoFragment (mkGit status branch tags1)
  = GitInfoFragment (mkGit status branch tags2).
Proof.
  intros H. unfold GitInfoFragment, format_dict, _git_mod_info, branch_info,
    _head_info, head_info_of.
  cbn [git_status git_branch git_tag].
  destruct status as [s|e]; [|reflexivity]. cbn [rbind].
  destruct branch as [b|e]; [|reflexivity]. cbn [rbind].
  rewrite (H s b eq_refl eq_refl). reflexivity.
Qed.

Lemma tag_listing_read_only_when_detached_witness :
  GitInfoFragment (mkGit (Ok sample_status) (Ok ("* main" ++ newline))
                     (Raise FileNotFoundError))
  = GitInfoFragment (mkGit (Ok sample_status) (Ok ("* main" ++ newline))
                       (Ok "v1.0")).
Proof.
  apply (tag_listing_read_only_when_detached (Ok sample_status)
           (Ok ("* main" ++ newline)) (Raise FileNotFoundError) (Ok "v1.0")).
  intros s b _ E. injection E as <-. reflexivity.
Defined.

Section OneLine.

Lemma line_rest_one_line (s : string) : PyStr.mem Re.nl (Re.line_rest s) = false.
Proof.
  induction s as [|x s IH]; [reflexivity|].
  rewrite line_rest_cons. destruct (Ascii.eqb x Re.nl) eqn:E; [reflexivity|].
  cbn [PyStr.mem]. now rewrite E, IH.
Qed.

Lemma upto_last_one_line (ch : ascii) (s x : string) :
  PyStr.mem Re.nl s = false -> Re.upto_last ch s = Some x ->
  PyStr.mem Re.nl x = false.
Proof.
  revert x. induction s as [|a s IH]; intros x H E; [discriminate|].
  cbn [PyStr.mem] in H. apply orb_false_iff in H as [Ha Hs].
  cbn [Re.upto_last] in E. destruct (Re.upto_last ch s) as [y|].
  - injection E as <-. cbn [PyStr.mem]. now rewrite Ha, (IH y).
  - destruct (Ascii.eqb a ch); [injection E as <-; reflexivity | discriminate].
Qed.

Lemma search_group_paren_one_line (literal s x : string) :
  Re.search_group_paren literal s = Some x -> PyStr.mem Re.nl x = false.
Proof.
  induction s as [|a s IH]; rewrite search_group_paren_eq.
  - destruct (prefix literal ""); [|discriminate].
    destruct (Re.upto_last _ _) eqn:E; [|discriminate].
    intros H. injection H as <-.
    eapply upto_last_one_line; [apply line_rest_one_line | exact E].
  - destruct (prefix literal (String a s)).
    + destruct (Re.upto_last _ _) eqn:E; [|exact IH].
      intros H. injection H as <-.
      eapply upto_last_one_line; [apply line_rest_one_line | exact E].
    + exact IH.
Qed.

Lemma search_group_one_line (literal s x : string) :
  Re.search_group literal s = Some x -> PyStr.mem Re.nl x = false.
Proof.
  induction s as [|a s IH]; rewrite search_group_eq.
  - destruct (prefix literal ""); [|discriminate].
    intros H. injection H as <-. apply line_rest_one_line.
  - destruct (prefix literal (String a s)); [|exact IH].
    intros H. injection H as <-. apply line_rest_one_line.
Qed.

End OneLine.

(** X12: the head descriptor has one of three shapes and stays on one
    line.  Whatever the branch listing and the tag listing hold, a head
    descriptor that [_head_info] returns is [(B)], [(D)] or [(T)], a
    space, and a name without a newline. *)
Theorem head_descriptor_shape (git : Git) (head : string) :
  _head_info git = Ok head ->
  exists kind name,
    head = kind ++ " " ++ name
    /\ (kind = "(B)" \/ kind = "(D)" \/ kind = "(T)")
    /\ PyStr.mem Re.nl name = false.
Proof.
  unfold _head_info, head_info_of, is_tag.
  destruct (git_branch git) as [b|e]; [|discriminate]. cbn [rbind].
  destruct (search_commit_or_tag b) as [X|] eqn:D.
  - destruct (git_tag git) as [tags|e]; [|discriminate]. cbn [rbind].
    intros H. injection H as <-.
    exists (if is_tag_of X tags then "(T)" else "(D)"), X.
    split; [reflexivity|]. split.
    + destruct (is_tag_of X tags); auto.
    + eapply search_group_paren_one_line. exact D.
  - destruct (search_regular_branch b) as [name|] eqn:B;
      intros H; injection H as <-.
    + exists "(B)", name. repeat split; auto.
      eapply search_group_one_line. exact B.
    + exists "(B)", "master". repeat split; auto.
Qed.

Lemma head_descriptor_shape_witness :
  exists kind name,
    "(B) main" = kind ++ " " ++ name
    /\ (kind = "(B)" \/ kind = "(D)" \/ kind = "(T)")
    /\ PyStr.mem Re.nl name = false.
Proof.
  exact (head_descriptor_shape sample_git "(B) main" eq_refl).
Defined.

(** X13: the modifier string reads the status text as a set of lines:
    two status texts with the same lines, in any order and any number of
    times, give the same modifier string. *)
Theorem modifier_ignores_order_and_repeats (status1 status2 : string) :
  (forall line, In line (status_lines status1)
                <-> In line (status_lines status2)) ->
  modifier_string status1 = modifier_string status2.
Proof.
  intros H. unfold modifier_string. f_equal. unfold mod_info_of.
  apply filter_ext. intros m.
  destruct (Re.search_multiline (mod_indicator_re m) status1) eqn:E1,
           (Re.search_multiline (mod_indicator_re m) status2) eqn:E2;
    try reflexivity.
  - apply bucket_matches_line in E1 as (line & Hin & Hb).
    rewrite <- E2. symmetry. apply bucket_matches_line.
    exists line. split; [now apply H | assumption].
  - apply bucket_matches_line in E2 as (line & Hin & Hb).
    rewrite <- E1. apply bucket_matches_line.
    exists line. split; [now apply H | assumption].
Qed.

Lemma modifier_ignores_order_and_repeats_witness :
  modifier_string ("?? u.txt" ++ newline ++ "A  new.txt" ++ newline)
  = modifier_string ("A  new.txt" ++ newline ++ "?? u.txt" ++ newline
                     ++ "A  new.txt" ++ newline).
Proof.
  apply modifier_ignores_order_and_repeats.
  intros line. cbn. intuition.
Defined.

(** ** The last-command fragment *)

Section Quoting.

Lemma length_replace_from (old new s : string) (skip : nat) :
  (1 <= String.length old <= String.length new)%nat ->
  (String.length s <= String.length (PyStr.replace_from old new skip s) + skip)%nat.
Proof.
  intros H. revert skip. induction s as [|x s IH]; intros skip; [cbn; lia|].
  cbn [PyStr.replace_from String.length]. destruct skip as [|k].
  - destruct (prefix old (String x s)).
    + rewrite length_append. specialize (IH (String.length old - 1)%nat). lia.
    + cbn [String.length]. specialize (IH 0%nat). lia.
  - specialize (IH k). lia.
Qed.

Lemma length_replace (old new s : string) :
  (1 <= String.length old <= String.length new)%nat ->
  (String.length s <= String.length (PyStr.replace old new s))%nat.
Proof.
  intros H. unfold PyStr.replace. destruct old as [|a k]; [cbn in H; lia|].
  pose proof (length_replace_from (String a k) new s 0 H). lia.
Qed.

Lemma all_safe_no_backslash (s : string) :
  Shlex.all_safe s = true -> PyStr.mem "\" s = false.
Proof.
  induction s as [|x s IH]; [reflexivity|].
  cbn [Shlex.all_safe PyStr.mem]. intros H.
  apply andb_true_iff in H as [Hx Hs]. rewrite (IH Hs), orb_false_r.
  destruct (Ascii.eqb_spec x "\") as [->|]; [discriminate Hx | reflexivity].
Qed.

Lemma format1_brackets (x : string) : format1 "['{}']" x = "['" ++ x ++ "']".
Proof. reflexivity. Qed.

Lemma last_command_content_length (escaped : string) (ch : ascii) (rest : string) :
  (1 <= String.length escaped)%nat ->
  let cmd := String ch rest in
  let p := LastCommandFragment_with escaped cmd green "['{}']" in
  (Shlex.all_safe cmd = true -> PyStr.len (content p) = (part_len p + 2)%Z)
  /\ (Shlex.all_safe cmd = false -> (part_len p + 4 <= PyStr.len (content p))%Z).
Proof.
  intros He cmd p.
  assert (W : part_len p = (PyStr.len cmd + 2)%Z) by reflexivity.
  assert (C : content p
              = "['" ++ PyStr.replace backslash escaped (Shlex.quote cmd) ++ "']")
    by reflexivity.
  rewrite W, C, !len_append.
  change (PyStr.len "['") with 2%Z. change (PyStr.len "']") with 2%Z.
  split; intros S.
  - unfold Shlex.quote. cbn [nonempty negb cmd]. fold cmd. rewrite S.
    unfold PyStr.replace, backslash.
    rewrite replace_from_absent
      by (apply contains_first_char; now apply all_safe_no_backslash).
    lia.
  - pose proof (length_replace backslash escaped (Shlex.quote cmd)
                  ltac:(cbn; lia)) as L1.
    assert (Q : Shlex.quote cmd
                = "'" ++ PyStr.replace "'"
                           ("'" ++ dquote ++ "'" ++ dquote ++ "'") cmd ++ "'").
    { unfold Shlex.quote. cbn [nonempty negb cmd]. fold cmd. now rewrite S. }
    assert (LQ : (String.length cmd + 2 <= String.length (Shlex.quote cmd))%nat).
    { rewrite Q, !length_append. cbn [String.length].
      pose proof (length_replace "'"
                    ("'" ++ dquote ++ "'" ++ dquote ++ "'") cmd
                    ltac:(cbn; lia)). lia. }
    unfold PyStr.len. lia.
Qed.

End Quoting.

(** X14: the last-command fragment is longer than it declares.  With
    the default format, the content of a non-empty command has exactly
    two characters more than the declared width (the two single quotes
    inside the brackets) when every character of the command is one
    that [quote] leaves alone, and four more at least when [quote] wraps
    the command; in the server and in the one-shot command alike. *)
Theorem last_command_content_exceeds_width (ch : ascii) (rest : string) :
  let cmd := String ch rest in
  let ps := Server.LastCommandFragment cmd green "['{}']" in
  let po := OneShot.LastCommandFragment cmd green "['{}']" in
  (Shlex.all_safe cmd = true ->
   PyStr.len (content ps) = (part_len ps + 2)%Z
   /\ PyStr.len (content po) = (part_len po + 2)%Z)
  /\ (Shlex.all_safe cmd = false ->
      (part_len ps + 4 <= PyStr.len (content ps))%Z
      /\ (part_len po + 4 <= PyStr.len (content po))%Z).
Proof.
  intros cmd ps po.
  destruct (last_command_content_length (backslash ++ backslash) ch rest
              ltac:(cbn; lia)) as [S1 S2].
  destruct (last_command_content_length
              (backslash ++ backslash ++ backslash ++ backslash) ch rest
              ltac:(cbn; lia)) as [O1 O2].
  split; intros H; split; auto.
Qed.

Lemma last_command_content_exceeds_width_witness :
  PyStr.len (content (Server.LastCommandFragment "ls" green "['{}']"))
  = (part_len (Server.LastCommandFragment "ls" green "['{}']") + 2)%Z
  /\ (part_len (Server.LastCommandFragment "ls -l" green "['{}']") + 4
      <= PyStr.len (content (Server.LastCommandFragment "ls -l" green "['{}']")))%Z.
Proof.
  split.
  - exact (proj1 (proj1 (last_command_content_exceeds_width "l" "s") eq_refl)).
  - exact (proj1 (proj2 (last_command_content_exceeds_width "l" "s -l") eq_refl)).
Defined.

(** ** The directory fragment *)

Lemma drop_all (n : nat) (s : string) :
  (String.length s <= n)%nat -> PyStr.drop n s = "".
Proof.
  revert s. induction n as [|n IH]; intros s H.
  - destruct s; [reflexivity | cbn in H; lia].
  - destruct s as [|x s]; [reflexivity|]. cbn in *. apply IH. lia.
Qed.

Lemma length_drop_le (n : nat) (s : string) :
  (String.length (PyStr.drop n s) <= String.length s)%nat.
Proof.
  revert s. induction n as [|n IH]; intros s; [destruct s; cbn; lia|].
  destruct s as [|x s]; [cbn; lia|]. cbn. specialize (IH s). lia.
Qed.

(** X15: a maximal length of 3 or less shortens nothing.  When the path,
    its home directory abbreviated, is longer than a [max_len] of at
    most 3, the three dots are put before the path less its first
    [3 - max_len] characters (the whole path for [max_len = 3]), and the
    result is still longer than [max_len]. *)
Theorem shortening_needs_max_len_above_three
    (HOME pwd : string) (max_len : Z) :
  let _pwd := PyStr.replace HOME "~" pwd in
  (max_len <= 3)%Z -> (max_len < PyStr.len _pwd)%Z ->
  _get_shortened_pwd HOME pwd max_len
  = "..." ++ PyStr.drop (Z.to_nat (3 - max_len)) _pwd
  /\ (max_len < PyStr.len (_get_shortened_pwd HOME pwd max_len))%Z.
Proof.
  intros _pwd Hmax Hlong.
  assert (E : _get_shortened_pwd HOME pwd max_len
              = "..." ++ PyStr.drop (Z.to_nat (3 - max_len)) _pwd).
  { unfold _get_shortened_pwd. fold _pwd.
    destruct (Z.ltb_spec max_len (PyStr.len _pwd)); [|lia].
    unfold PyStr.slice_from.
    destruct (Z.ltb_spec (- (max_len - 3)) 0); [lia|].
    f_equal.
    destruct (Z.min_spec (- (max_len - 3)) (PyStr.len _pwd)) as [[_ ->]|[Hge ->]].
    - f_equal. lia.
    - unfold PyStr.len in *. rewrite Nat2Z.id.
      rewrite (drop_all (String.length _pwd)) by lia.
      rewrite (drop_all (Z.to_nat (3 - max_len))) by lia.
      reflexivity. }
  split; [exact E|]. rewrite E, len_append. change (PyStr.len "...") with 3%Z.
  destruct (Z.eq_dec max_len 3) as [->|].
  - change (PyStr.drop (Z.to_nat (3 - 3)) _pwd) with _pwd. lia.
  - pose proof (len_nonneg (PyStr.drop (Z.to_nat (3 - max_len)) _pwd)). lia.
Qed.

Lemma shortening_needs_max_len_above_three_witness :
  _get_shortened_pwd "/home/u" "/home/u/src" 3 = "..." ++ "~/src"
  /\ (3 < PyStr.len (_get_shortened_pwd "/home/u" "/home/u/src" 3))%Z.
Proof.
  exact (shortening_needs_max_len_above_three "/home/u" "/home/u/src" 3
           ltac:(discriminate) eq_refl).
Defined.

(** X16: the width of the directory fragment is bounded.  For a
    [max_len] above 3, the shortened path has [max_len] characters at
    most, and the fragment in its default format two more at most: 62
    for the default [max_len] of the top line. *)
Theorem directory_fragment_width_bounded
    (HOME pwd : string) (color : Colors) (max_len : Z) :
  (3 < max_len)%Z ->
  (PyStr.len (_get_shortened_pwd HOME pwd max_len) <= max_len)%Z
  /\ (part_len (PWDFragment HOME pwd color max_len "({})") <= max_len + 2)%Z.
Proof.
  intros Hmax.
  assert (B : (PyStr.len (_get_shortened_pwd HOME pwd max_len) <= max_len)%Z).
  { unfold _get_shortened_pwd.
    set (_pwd := PyStr.replace HOME "~" pwd).
    destruct (Z.ltb_spec max_len (PyStr.len _pwd)) as [Hlong|]; [|assumption].
    unfold PyStr.slice_from.
    destruct (Z.ltb_spec (- (max_len - 3)) 0); [|lia].
    rewrite len_append. change (PyStr.len "...") with 3%Z.
    unfold PyStr.len at 1. rewrite length_drop by (unfold PyStr.len in *; lia).
    unfold PyStr.len in *. lia. }
  split; [exact B|].
  unfold part_len, PWDFragment. cbn [last_cmd content].
  rewrite format1_parens, !len_append.
  change (PyStr.len "(") with 1%Z. change (PyStr.len ")") with 1%Z. lia.
Qed.

Lemma directory_fragment_width_bounded_witness :
  (PyStr.len (_get_shortened_pwd "/home/u" long_pwd 60) <= 60)%Z
  /\ (part_len (PWDFragment "/home/u" long_pwd teal 60 "({})") <= 60 + 2)%Z.
Proof.
  exact (directory_fragment_width_bounded "/home/u" long_pwd teal 60 eq_refl).
Defined.

(** ** The time fragment *)

Lemma two_digits_length_nat (k : nat) :
  (k < 100)%nat -> String.length (two_digits (Z.of_nat k)) = 2%nat.
Proof.
  intros K. do 100 (destruct k as [|k]; [reflexivity|]). lia.
Qed.

Lemma two_digits_length (n : Z) :
  (0 <= n < 100)%Z -> String.length (two_digits n) = 2%nat.
Proof.
  intros H. rewrite <- (Z2Nat.id n) by lia.
  apply two_digits_length_nat. lia.
Qed.

(** X17: the time fragment has a constant width.  For an hour, a minute
    and a second of at most two digits, the fragment is ten characters
    wide, so the right container of the top line takes ten columns. *)
Theorem time_fragment_width (now : Clock) (color : Colors) :
  (0 <= hour now < 100)%Z -> (0 <= minute now < 100)%Z ->
  (0 <= second now < 100)%Z ->
  part_len (TimeFragment now color) = 10%Z.
Proof.
  intros Hh Hm Hs. unfold part_len, TimeFragment. cbn [last_cmd content].
  unfold PyStr.len. rewrite !length_append.
  rewrite !two_digits_length by assumption. reflexivity.
Qed.

Lemma time_fragment_width_witness :
  part_len (TimeFragment (mkClock 23 59 59) gray) = 10%Z.
Proof.
  apply (time_fragment_width (mkClock 23 59 59) gray); cbn; lia.
Defined.

(** ** The environment fragments and the prompt *)

Lemma last_segment_after_slash (dir name : string) :
  PyStr.mem "/" name = false -> last_segment (dir ++ String "/" name) = name.
Proof.
  intros H. unfold last_segment.
  rewrite split_app_sep, (split_no_sep "/" name) by assumption.
  apply last_last.
Qed.

Lemma nonempty_app_cons (a : string) (ch : ascii) (b : string) :
  nonempty (a ++ String ch b) = true.
Proof. destruct a; reflexivity. Qed.

(** X18: an environment fragment shows the last segment of the path.
    For a path that ends with a slash and a name without a slash, the
    content of the fragment is the format filled with that name, in the
    server and in the one-shot command alike; after a final slash the
    name is empty and the format is filled with nothing. *)
Theorem env_fragment_shows_last_segment
    (dir name : string) (color : Colors) (format_str : string) :
  PyStr.mem "/" name = false ->
  content (Server.VirtualEnvFragment (dir ++ String "/" name) color format_str)
  = format1 format_str name
  /\ content (OneShot.EnvFragment (Some (dir ++ String "/" name)) color
                format_str)
     = format1 format_str name.
Proof.
  intros H. unfold Server.VirtualEnvFragment, OneShot.EnvFragment.
  cbn [content]. rewrite nonempty_app_cons, last_segment_after_slash
    by assumption.
  split; reflexivity.
Qed.

Lemma env_fragment_shows_last_segment_witness :
  content (Server.VirtualEnvFragment ("/home/u/venvs" ++ String "/" "py3") teal
             "({})") = "(py3)"
  /\ content (OneShot.EnvFragment (Some ("/home/u/venvs" ++ String "/" "py3"))
                teal "({})") = "(py3)".
Proof.
  exact (env_fragment_shows_last_segment "/home/u/venvs" "py3" teal "({})"
           eq_refl).
Defined.

(** ** The width of the server's top line *)

Lemma git_fragment_is_base (g : Git) (gf : PromptPart) :
  GitInfoFragment g = Ok gf -> last_cmd gf = None.
Proof.
  unfold GitInfoFragment. destruct (format_dict g) as [[h m]|e].
  - intros H. injection H as <-. reflexivity.
  - destruct e; intros H; try discriminate H; injection H as <-; reflexivity.
Qed.

Lemma left_container_plain (st : store) :
  uncolorized_str st left_container
  = content (st 0%nat) ++ content (st 1%nat).
Proof.
  unfold uncolorized_str. cbn [parts separator left_container filter].
  destruct (content (st 0%nat)) eqn:E0, (content (st 1%nat)) eqn:E1; cbn;
    rewrite ?E0, ?E1, ?append_nil_r; reflexivity.
Qed.

(** X19: how long the text of the server's top line is.  When the git
    fragment is built and the fill is positive, the string that
    [handle_client] composes for the top line has, its colour escapes
    taken out, as many characters as the terminal has columns, plus
    those that the content of the last-command fragment has over its
    declared width (the quote characters written into the content):
    exactly the terminal width when there is no last command.  This
    counts the characters of the string; what a shell does with the
    quotes when it runs the [echo] is not part of it. *)
Theorem server_topline_visible_width (ctx : Context) (gf : PromptPart) :
  GitInfoFragment (git ctx) = Ok gf ->
  (0 < fill_of (COLS ctx) left_container center_container right_container
         (Server.top_store ctx gf))%Z ->
  let lc := Server.LastCommandFragment (LAST_CMD ctx) green "['{}']" in
  visible_width
    (Server.embed_in_horizontal_rule (COLS ctx) left_container center_container
       right_container RULE_CHAR) (Server.top_store ctx gf)
  = (COLS ctx + (PyStr.len (content lc) - part_len lc))%Z
  /\ (LAST_CMD ctx = "" ->
      visible_width
        (Server.embed_in_horizontal_rule (COLS ctx) left_container
           center_container right_container RULE_CHAR)
        (Server.top_store ctx gf) = COLS ctx).
Proof.
  intros G Hfill lc.
  assert (V : visible_width
                (Server.embed_in_horizontal_rule (COLS ctx) left_container
                   center_container right_container RULE_CHAR)
                (Server.top_store ctx gf)
              = (COLS ctx + (PyStr.len (content lc) - part_len lc))%Z).
  { rewrite server_visible_width by assumption.
    unfold fill_of. set (st := Server.top_store ctx gf).
    assert (Ll : container_len st left_container
                 = (PyStr.len (content gf) + part_len lc)%Z).
    { unfold container_len. cbn [parts left_container map fold_right].
      change (st 0%nat) with gf. change (st 1%nat) with lc.
      unfold part_len at 1. rewrite (git_fragment_is_base _ _ G). lia. }
    assert (Pl : uncolorized_str st left_container
                 = content gf ++ content lc).
    { rewrite left_container_plain. reflexivity. }
    assert (Pc : PyStr.len (uncolorized_str st center_container)
                 = container_len st center_container)
      by (unfold st; now rewrite top_center_len, top_center_plain).
    assert (Pr : PyStr.len (uncolorized_str st right_container)
                 = container_len st right_container).
    { unfold container_len. cbn [parts right_container map fold_right].
      rewrite Z.add_0_r. reflexivity. }
    rewrite Pl, Pc, Pr, Ll, len_append.
    change (PyStr.len RULE_CHAR) with 1%Z. lia. }
  split; [exact V|].
  intros E. rewrite V. unfold lc. rewrite E.
  change (PyStr.len (content (Server.LastCommandFragment "" green "['{}']")))
    with 0%Z.
  change (part_len (Server.LastCommandFragment "" green "['{}']")) with 0%Z.
  lia.
Qed.

Lemma server_topline_visible_width_witness :
  visible_width
    (Server.embed_in_horizontal_rule (COLS sample_context) left_container
       center_container right_container RULE_CHAR)
    (Server.top_store sample_context
       {| content := "[(B) main|!+?|]"; color := blue; zero_width := true;
          last_cmd := None |})
  = (COLS sample_context + 2)%Z.
Proof.
  refine (eq_trans
            (proj1 (server_topline_visible_width sample_context _ eq_refl _))
            eq_refl).
  vm_compute. reflexivity.
Defined.

(** ** The replacement in the one-shot compositor *)

Lemma replace_from_repeat (ch : ascii) (new : string) (n : nat) :
  PyStr.replace_from (String ch "") new 0 (PyStr.repeat_nat (String ch "") n)
  = PyStr.repeat_nat new n.
Proof.
  induction n as [|n IH]; [reflexivity|].
  cbn [PyStr.repeat_nat]. rewrite <- IH.
  change (String ch "" ++ PyStr.repeat_nat (String ch "") n)
    with (String ch (PyStr.repeat_nat (String ch "") n)).
  cbn [PyStr.replace_from]. rewrite prefix_cons, Ascii.eqb_refl, prefix_nil.
  reflexivity.
Qed.

(** X20: the replacement reaches the rule.  When the plain text of the
    centre is the rule character itself and the middle budget is
    positive, the one-shot compositor replaces every character of the
    padded centre, the rule characters with it: the line holds as many
    copies of the rendered centre as the middle budget. *)
Theorem oneshot_replacement_reaches_rule
    (w : Z) (l c r : PromptPartContainer) (rule : ascii) (st : store) :
  uncolorized_str st c = String rule "" ->
  (0 < middle_budget w l r st)%Z ->
  let st' := top_line_store st l c r in
  fst (OneShot.embed_in_horizontal_rule w l c r (String rule "") st)
  = Ok (container_str st' l
        ++ PyStr.mul (container_str st' c) (middle_budget w l r st)
        ++ container_str st' r).
Proof.
  intros Hplain Hb st'.
  rewrite oneshot_embed_run. cbv zeta. fold st'.
  unfold middle_budget in *. rewrite Hplain.
  set (budget := (w - container_len st l - container_len st r)%Z) in *.
  unfold OneShot.format_center.
  destruct (Z.ltb_spec budget 0); [lia|].
  change (PyStr.len (String rule "")) with 1%Z.
  assert (P : forall n, (0 <= n)%Z ->
                PyStr.replace (String rule "") (container_str st' c)
                  (PyStr.mul (String rule "") n)
                = PyStr.mul (container_str st' c) n)
    by (intros n _; apply replace_from_repeat).
  destruct (Z.ltb_spec 0 (budget - 1)) as [Hpos|Hneg]; cbn [fst].
  - assert (0 <= (budget - 1) / 2)%Z by (apply Z.div_pos; lia).
    pose proof (Z.div_mod (budget - 1) 2 ltac:(lia)) as D.
    pose proof (Z.mod_pos_bound (budget - 1) 2 ltac:(lia)) as B.
    change (String rule "") with (PyStr.mul (String rule "") 1) at 3.
    rewrite !mul_add by lia.
    replace ((budget - 1) / 2 + (1 + (budget - 1 - (budget - 1) / 2)))%Z
      with budget by lia.
    now rewrite P by lia.
  - assert (B1 : budget = 1%Z) by lia. rewrite B1.
    rewrite replace_self.
    change (PyStr.mul (container_str st' c) 1) with (container_str st' c ++ "").
    now rewrite append_nil_r.
Qed.

Lemma oneshot_replacement_reaches_rule_witness :
  fst (OneShot.embed_in_horizontal_rule 3 empty_container
         (mkContainer "" [0%nat]) empty_container "~"
         (store_of [ColoredTextFragment "~" red]))
  = Ok ("" ++ PyStr.mul "\e[38;5;1m~\e[0;m" 3 ++ "").
Proof.
  exact (oneshot_replacement_reaches_rule 3 empty_container
           (mkContainer "" [0%nat]) empty_container "~"
           (store_of [ColoredTextFragment "~" red]) eq_refl eq_refl).
Defined.

(** ** The prompt *)

(** X21: the prompt ends with the arrow.  Whatever the environment
    variables hold, the prompt of either program is the rendering of
    the fragments that have content followed by the red arrow, rendered
    for the line editor; with no variable set it is the arrow alone, the
    same in both programs. *)
Theorem prompt_ends_with_arrow (ctx : Context) :
  (exists before, Server.prompt_str ctx
                  = before ++ part_str (ColoredTextFragment "➤ " red))
  /\ (exists before, OneShot.prompt_str ctx
                     = before ++ part_str (ColoredTextFragment "➤ " red))
  /\ (VIRTUAL_ENV ctx = None -> NODE_VIRTUAL_ENV ctx = None ->
      Server.prompt_str ctx = part_str (ColoredTextFragment "➤ " red))
  /\ (VIRTUAL_ENV ctx = None -> CONDA_DEFAULT_ENV ctx = None ->
      OneShot.prompt_str ctx = part_str (ColoredTextFragment "➤ " red)).
Proof.
  split; [|split; [|split]].
  - unfold Server.prompt_str. cbn [filter].
    change (truthy (ColoredTextFragment "➤ " red)) with true.
    destruct (truthy (Server.VirtualEnvFragment _ teal _));
      destruct (truthy (Server.VirtualEnvFragment _ green _));
      cbn [map PyStr.join concat];
      eexists; rewrite <- ?append_assoc; try reflexivity.
    instantiate (1 := ""). reflexivity.
  - unfold OneShot.prompt_str. cbn [filter].
    change (truthy (ColoredTextFragment "➤ " red)) with true.
    destruct (truthy (OneShot.EnvFragment _ teal _));
      destruct (truthy (OneShot.EnvFragment _ green _));
      cbn [map PyStr.join concat];
      eexists; rewrite <- ?append_assoc; try reflexivity.
    instantiate (1 := ""). reflexivity.
  - intros H1 H2. unfold Server.prompt_str. rewrite H1, H2. reflexivity.
  - intros H1 H2. unfold OneShot.prompt_str. rewrite H1, H2. reflexivity.
Qed.

Lemma prompt_ends_with_arrow_witness :
  Server.prompt_str sample_context = part_str (ColoredTextFragment "➤ " red)
  /\ OneShot.prompt_str sample_context
     = part_str (ColoredTextFragment "➤ " red).
Proof.
  destruct (prompt_ends_with_arrow sample_context) as (_ & _ & H1 & H2).
  split; [exact (H1 eq_refl eq_refl) | exact (H2 eq_refl eq_refl)].
Defined.

(** ** Adding a part to a container *)

Lemma join_snoc (sep s : string) (l : list string) :
  PyStr.join sep (l ++ [s])
  = match l with
    | [] => s
    | _ :: _ => PyStr.join sep l ++ sep ++ s
    end.
Proof.
  unfold PyStr.join. induction l as [|x l IH]; [reflexivity|].
  destruct l as [|y l]; [reflexivity|].
  change (concat sep ((x :: y :: l) ++ [s]))
    with (x ++ sep ++ concat sep ((y :: l) ++ [s])).
  rewrite IH.
  change (concat sep (x :: y :: l)) with (x ++ sep ++ concat sep (y :: l)).
  now rewrite !append_assoc.
Qed.

(** X22: what [add] adds.  A part added to a container adds its width to
    the width of the container; when the part has content, its rendering
    comes last in the text of the container, after a separator when
    another part with content stands before it, and alone when none
    does. *)
Theorem container_add_extends
    (st : store) (c : PromptPartContainer) (x : ref) :
  container_len st (container_add c x)
  = (container_len st c + part_len (st x))%Z
  /\ (nonempty (content (st x)) = true ->
      container_str st (container_add c x)
      = match filter (fun y => nonempty (content (st y))) (parts c) with
        | [] => part_str (st x)
        | _ :: _ => container_str st c ++ separator c ++ part_str (st x)
        end).
Proof.
  split.
  - unfold container_len, container_add. cbn [parts].
    rewrite map_app. cbn [map].
    induction (map (fun r => part_len (st r)) (parts c)) as [|z zs IH];
      cbn [app fold_right]; lia.
  - intros H. unfold container_str, container_add. cbn [parts separator].
    rewrite filter_app. cbn [filter]. rewrite H, map_app. cbn [map].
    rewrite join_snoc.
    destruct (filter (fun y => nonempty (content (st y))) (parts c));
      reflexivity.
Qed.

Lemma container_add_extends_witness :
  container_str two_part_store (container_add (mkContainer "~" [0%nat]) 1%nat)
  = "a" ++ "~" ++ "b".
Proof.
  exact (proj2 (container_add_extends two_part_store (mkContainer "~" [0%nat])
                  1%nat) eq_refl).
Defined.
